(** * sleepWave: a shallow embedding of the chart's layout and event code

    The development follows the three TypeScript sources of the chart:

    - [canvas_event.ts]  the observer registry [Event] (module [canvas_event]);
    - [sleep_block.ts]   one rendered block, [SleepWaveBlock]
                         (module [sleep_block]);
    - [sleepWave.ts]     [throttle] (module [Throttle]) and the chart class
                         [SleepWave] (module [sleepWave]);
    - [SleepChart.vue]   the data of the example page (module [SleepChart]).

    Conventions of the embedding.

    - A JavaScript [number] is an exact rational ([Qc]): rounding, NaN and
      the infinities of IEEE doubles are outside the model, and so is what
      a division by zero yields ([Xmax = Xmin]).  Clock readings
      ([Date.now()]) and timer delays are integers ([Z], milliseconds).
    - Objects are records, mutation is state passing.  The state a block
      reaches through its back reference to the chart and through
      [document] (tooltip, cursor, bounding box of the canvas, deferred
      jobs) is gathered in the record [Page].
    - The 2D context is a log of the calls made on it, oldest first.
    - [null] and [undefined] are [None]. *)

From Stdlib Require Import ZArith QArith Qcanon Qround Lia Lqa.
From stdpp Require Import base decidable option list gmap strings numbers.

Local Open Scope Qc_scope.

(** ** Numbers *)

Abbreviation number := Qc (only parsing).

Definition num (z : Z) : number := Qc_of_Z z.

(** [a < b] and [a > b] on numbers. *)
Definition ltb (a b : number) : bool := bool_decide (a < b).
Definition gtb (a b : number) : bool := ltb b a.

(** [a !== b] on numbers. *)
Definition neqb (a b : number) : bool := negb (bool_decide (a = b)).

(** [Math.min(a, b)]. *)
Definition Math_min (a b : number) : number := if ltb b a then b else a.

(** [arr[i]] for a number [i]: a property that exists only when [i] is a
    non-negative integer below the length. *)
Definition index {A : Type} (arr : list A) (i : number) : option A :=
  if ((Qden (this i) =? 1)%positive && (0 <=? Qnum (this i))%Z)%bool
  then arr !! Z.to_nat (Qnum (this i))
  else None.

(** ** Outcome of a call that may throw *)

Inductive Outcome (E W : Type) : Type :=
| Returned (w : W)
| Thrown (e : E) (w : W).
Arguments Returned {E W} w.
Arguments Thrown {E W} e w.

Definition outcome_state {E W : Type} (o : Outcome E W) : W :=
  match o with
  | Returned w => w
  | Thrown _ w => w
  end.

(** ** canvas_event.ts *)

Module canvas_event.
Section Event.
(** [H]: handler functions, compared by identity ([===]);
    [P]: the event object handed to handlers;
    [W]: the state handlers act on; [E]: what they may throw. *)
Context {H P W E : Type} `{EqDecision H}.
(** [event.type] *)
Variable kind : P → option string.
(** [handler(event)] *)
Variable run : H → P → W → Outcome E W.

Record Event : Type := { _listener : gmap string (list H) }.

Definition create : Event := {| _listener := ∅ |}.

Definition on (type : string) (handler : H) (ev : Event) : Event :=
  let l :=
    match _listener ev !! type with
    | None => <[type := []]> (_listener ev)
    | Some _ => _listener ev
    end in
  {| _listener := <[type := default [] (l !! type) ++ [handler]]> l |}.

(** The [for] loop of [emit]: the handlers are called from index 0 upwards;
    a handler that throws ends the loop and the exception leaves [emit].
    Handlers act on [W], which does not hold the registry being walked. *)
Fixpoint call_each (typeListeners : list H) (event : P) (w : W)
  : Outcome E W :=
  match typeListeners with
  | [] => Returned w
  | handler :: rest =>
      match run handler event w with
      | Returned w' => call_each rest event w'
      | Thrown e w' => Thrown e w'
      end
  end.

Definition emit (type : string) (event : option P) (ev : Event) (w : W)
  : Outcome E W :=
  match event with
  | None => Returned w
  | Some p =>
      match kind p with
      | None => Returned w
      | Some _ =>
          match _listener ev !! type with
          | None => Returned w
          | Some typeListeners => call_each typeListeners p w
          end
      end
  end.

(** [listeners.splice(i, 1)] at the first [i] with
    [listeners[i] === handler]. *)
Fixpoint remove_first (handler : H) (listeners : list H) : list H :=
  match listeners with
  | [] => []
  | h :: rest =>
      if decide (h = handler) then rest else h :: remove_first handler rest
  end.

Definition remove (type : string) (handler : option H) (ev : Event)
  : Event :=
  match handler with
  | None => {| _listener := <[type := []]> (_listener ev) |}
  | Some h =>
      match _listener ev !! type with
      | None => ev
      | Some listeners =>
          {| _listener := <[type := remove_first h listeners]> (_listener ev) |}
      end
  end.
End Event.
Arguments Event H : clear implicits.
End canvas_event.

(** ** The drawing surface *)

Module Point.
Record t : Type := { x : number; y : number }.
End Point.

(** A [CanvasGradient] with the colour stops added to it. *)
Record Gradient : Type := {
  g_x0 : number; g_y0 : number; g_x1 : number; g_y1 : number;
  colorStops : list (number * option string)
}.

(** What [strokeStyle] and [fillStyle] are set to; a colour read from an
    array beyond its end is [undefined]. *)
Inductive Style : Type :=
| Color (c : option string)
| LinearGradient (g : Gradient).

(** Calls on the [CanvasRenderingContext2D]. *)
Inductive CanvasCmd : Type :=
| clearRect (x y w h : number)
| beginPath
| set_lineWidth (w : number)
| set_strokeStyle (s : Style)
| set_fillStyle (s : Style)
| set_font (f : string)
| moveTo (x y : number)
| lineTo (x y : number)
| quadraticCurveTo (cpx cpy x y : number)
| closePath
| stroke
| fill
| fillText (text : string) (x y : number)
| createLinearGradient (x0 y0 x1 y1 : number).

(** ** The tooltip object

    [initTooltip().$mount] returns a [Proxy] over the tooltip data whose [set]
    trap mirrors the three fields into the tooltip element. *)

Module Tooltip.
Record BlockInfo : Type := {
  color : option string; title : option string; value : number
}.

Record t : Type := {
  visible : bool;
  pos : Point.t;
  blockInfo : BlockInfo;
  (* tooltipElement *)
  style_display : string;
  style_left : option number;      (* in px *)
  style_top : option number;       (* in px *)
  style_borderColor : option string;
  innerHTML : option BlockInfo;    (* the block the markup was built from *)
  clientWidth : number             (* [$el.clientWidth], measured by the host *)
}.

Definition initTooltip (measured : number) : t :=
  {| visible := false;
     pos := {| Point.x := 0; Point.y := 0 |};
     blockInfo := {| color := Some ""; title := Some ""; value := 0 |};
     style_display := "none";
     style_left := None; style_top := None;
     style_borderColor := Some "#EDEDED";
     innerHTML := None;
     clientWidth := measured |}.

Definition set_visible (v : bool) (tt : t) : t :=
  {| visible := v; pos := pos tt; blockInfo := blockInfo tt;
     style_display := if v then "block" else "none";
     style_left := style_left tt; style_top := style_top tt;
     style_borderColor := style_borderColor tt;
     innerHTML := innerHTML tt; clientWidth := clientWidth tt |}.

Definition set_pos (p : Point.t) (tt : t) : t :=
  {| visible := visible tt; pos := p; blockInfo := blockInfo tt;
     style_display := style_display tt;
     style_left := Some (Point.x p); style_top := Some (Point.y p);
     style_borderColor := style_borderColor tt;
     innerHTML := innerHTML tt; clientWidth := clientWidth tt |}.

Definition set_blockInfo (bi : BlockInfo) (tt : t) : t :=
  {| visible := visible tt; pos := pos tt; blockInfo := bi;
     style_display := style_display tt;
     style_left := style_left tt; style_top := style_top tt;
     style_borderColor := color bi;
     innerHTML := Some bi; clientWidth := clientWidth tt |}.
End Tooltip.

(** A DOM [MouseEvent], as far as the chart reads it. *)
Module MouseEvent.
Record t : Type := { type : string; clientX : number; clientY : number }.
End MouseEvent.

(** ** sleep_block.ts *)

Module sleep_block.

Module Options.
Record t : Type := {
  startX : number; startY : number; endX : number; endY : number;
  hasStraight : bool; nowRadius : number;
  color : option string; title : option string; value : number;
  borderRadius : number; lineWidth : number
}.
End Options.

(** The two arrow functions every block registers on itself. *)
Inductive Handler : Type := handleClick | handleMouseMove.

#[global] Instance Handler_eq_dec : EqDecision Handler.
Proof. solve_decision. Defined.

(** [SleepWaveBlock extends Event]; [super] is the inherited registry.
    The references [canvas] and [ctx] of the class are not fields here:
    what is reached through them is passed in ([Page], the command log). *)
Record SleepWaveBlock : Type := {
  super : canvas_event.Event Handler;
  point : Point.t;
  width : number;
  startX : number; startY : number; endX : number; endY : number;
  hasStraight : bool; nowRadius : number;
  color : option string; title : option string; value : number;
  borderRadius : number; lineWidth : number
}.

(** The callback [handleMouseMove] hands to [setTimeout]; it closes over
    its block, recorded here as the block was when the job was queued. *)
Inductive Job : Type := placeTooltip (self : SleepWaveBlock).

(** The state outside the chart object that blocks read and write. *)
Record Page : Type := {
  cursor : string;                 (* document.body.style.cursor *)
  tooltip : Tooltip.t;             (* this.canvas.tooltip *)
  bbox_left : number;              (* canvas.getBoundingClientRect().left *)
  bbox_top : number;               (* canvas.getBoundingClientRect().top *)
  jobs : list Job                  (* queued by setTimeout(fn), oldest first *)
}.

Definition set_cursor (c : string) (pg : Page) : Page :=
  {| cursor := c; tooltip := tooltip pg; bbox_left := bbox_left pg;
     bbox_top := bbox_top pg; jobs := jobs pg |}.

Definition set_tooltip (tt : Tooltip.t) (pg : Page) : Page :=
  {| cursor := cursor pg; tooltip := tt; bbox_left := bbox_left pg;
     bbox_top := bbox_top pg; jobs := jobs pg |}.

Definition setTimeout (j : Job) (pg : Page) : Page :=
  {| cursor := cursor pg; tooltip := tooltip pg; bbox_left := bbox_left pg;
     bbox_top := bbox_top pg; jobs := jobs pg ++ [j] |}.

Definition set_point (p : Point.t) (b : SleepWaveBlock) : SleepWaveBlock :=
  {| super := super b; point := p; width := width b;
     startX := startX b; startY := startY b; endX := endX b; endY := endY b;
     hasStraight := hasStraight b; nowRadius := nowRadius b;
     color := color b; title := title b; value := value b;
     borderRadius := borderRadius b; lineWidth := lineWidth b |}.

(** [constructor(canvas, opts)]; [canvas_width] is [canvas.canvas.width]. *)
Definition new (canvas_width : number) (opts : Options.t) : SleepWaveBlock :=
  {| super :=
       canvas_event.on "mousemove" handleMouseMove
         (canvas_event.on "click" handleClick canvas_event.create);
     point := {| Point.x := 0; Point.y := 0 |};
     width := canvas_width;
     startX := Options.startX opts; startY := Options.startY opts;
     endX := Options.endX opts; endY := Options.endY opts;
     hasStraight := Options.hasStraight opts;
     nowRadius := Options.nowRadius opts;
     color := Options.color opts; title := Options.title opts;
     value := Options.value opts;
     borderRadius := Options.borderRadius opts;
     lineWidth := Options.lineWidth opts |}.

Definition commonHandler (pg : Page) : Page :=
  let pg := set_cursor "pointer" pg in
  set_tooltip (Tooltip.set_visible true (tooltip pg)) pg.

(** The body of the deferred callback of [handleMouseMove]. *)
Definition run_job (j : Job) (pg : Page) : Page :=
  match j with
  | placeTooltip self =>
      let boxWidth := Tooltip.clientWidth (tooltip pg) in
      let px := Point.x (point self) in
      let pg :=
        set_tooltip
          (Tooltip.set_pos
             {| Point.x :=
                  if ltb (px + boxWidth + num 12) (width self)
                  then px
                  else width self - boxWidth - num 12;
                Point.y := num 8 |}
             (tooltip pg)) pg in
      set_tooltip
        (Tooltip.set_blockInfo
           {| Tooltip.color := color self; Tooltip.title := title self;
              Tooltip.value := value self |}
           (tooltip pg)) pg
  end.

(** Calling a registered handler of block [self]; neither handler throws. *)
Definition handler_run (self : SleepWaveBlock) (h : Handler)
    (e : MouseEvent.t) (pg : Page) : Outcome Empty_set Page :=
  match h with
  | handleClick => Returned (commonHandler pg)
  | handleMouseMove =>
      Returned (setTimeout (placeTooltip self) (commonHandler pg))
  end.

(** [this.emit(type, event)] on a block. *)
Definition emit (type : string) (event : MouseEvent.t)
    (self : SleepWaveBlock) (pg : Page) : Outcome Empty_set Page :=
  canvas_event.emit (λ e, Some (MouseEvent.type e)) (handler_run self)
    type (Some event) (super self) pg.

Definition draw (self : SleepWaveBlock) : list CanvasCmd :=
  [ beginPath;
    set_lineWidth (lineWidth self);
    set_strokeStyle (Color (color self));
    moveTo (startX self) (startY self + borderRadius self);
    lineTo (startX self) (endY self - borderRadius self);
    quadraticCurveTo (startX self) (endY self)
      (startX self + nowRadius self) (endY self) ]
  ++ (if hasStraight self
      then [ lineTo (endX self - borderRadius self) (endY self) ] else [])
  ++ [ quadraticCurveTo (endX self) (endY self)
         (endX self) (endY self - borderRadius self);
       lineTo (endX self) (startY self + borderRadius self);
       quadraticCurveTo (endX self) (startY self)
         (endX self - nowRadius self) (startY self) ]
  ++ (if hasStraight self
      then [ lineTo (startX self + borderRadius self) (startY self) ] else [])
  ++ [ quadraticCurveTo (startX self) (startY self)
         (startX self) (startY self + borderRadius self);
       stroke;
       set_fillStyle (Color (color self));
       fill ].

Definition getEventPosition (clientX clientY : number) (pg : Page)
  : Point.t :=
  {| Point.x := clientX - bbox_left pg; Point.y := clientY - bbox_top pg |}.

(** Returns the answer, the block (its [point] is overwritten) and the
    page. *)
Definition isEventInRegion (clientX clientY : number)
    (self : SleepWaveBlock) (pg : Page) : bool * SleepWaveBlock * Page :=
  let self := set_point (getEventPosition clientX clientY pg) self in
  let x := Point.x (point self) in
  let y := Point.y (point self) in
  let width := endX self - startX self in
  let height := endY self - startY self in
  if ltb (startX self) x && ltb x (startX self + width)
     && ltb (startY self) y && ltb y (startY self + height)
  then (true, self, pg)
  else
    let pg := set_cursor "default" pg in
    let pg := set_tooltip (Tooltip.set_visible false (tooltip pg)) pg in
    (false, self, pg).

End sleep_block.

(** ** sleepWave.ts: [throttle]

    The host side of [throttle] is an event loop with a clock, the table of
    pending [window.setTimeout] callbacks and the closures created by
    [throttle].  Timers are ideal: a callback runs when the clock reaches
    its due time, before anything else that happens at that time.  The list
    [dispatched] records every [func.apply(this, args)] with the clock
    reading and the closure that made it. *)

Module Throttle.
Section Throttle.
(** [A]: the arguments of the throttled function; [U]: the state [func]
    acts on. *)
Context {A U : Type}.

(** The variables captured by one function returned by [throttle]. *)
Record Closure : Type := {
  func : A → U → U;
  delay : Z;
  timeoutId : option positive;
  lastExecTime : Z
}.

(** A pending callback of [window.setTimeout], set by closure [owner]. *)
Record Timer : Type := {
  id : positive; due : Z; owner : nat; args : A
}.

Record Host : Type := {
  now : Z;                          (* Date.now() *)
  nextId : positive;
  timers : list Timer;
  closures : list Closure;
  dispatched : list (Z * nat * A);
  user : U
}.

Definition boot (start : Z) (u : U) : Host :=
  {| now := start; nextId := 1%positive; timers := []; closures := [];
     dispatched := []; user := u |}.



Definition set_closures (cs : list Closure) (h : Host) : Host :=
  {| now := now h; nextId := nextId h; timers := timers h;
     closures := cs; dispatched := dispatched h; user := user h |}.

Definition set_user (u : U) (h : Host) : Host :=
  {| now := now h; nextId := nextId h; timers := timers h;
     closures := closures h; dispatched := dispatched h; user := u |}.



(** [throttle(func, delay)]: a new closure; the result is its index. *)
Definition throttle (f : A → U → U) (d : Z) (h : Host) : nat * Host :=
  (length (closures h),
   set_closures
     (closures h ++
        [{| func := f; delay := d; timeoutId := None; lastExecTime := 0 |}])
     h).



(** [window.setTimeout(callback, ms)] by closure [k]; a negative [ms]
    counts as 0. *)
Definition setTimeout (k : nat) (a : A) (ms : Z) (h : Host)
  : positive * Host :=
  (nextId h,
   {| now := now h; nextId := Pos.succ (nextId h);
      timers := timers h ++
        [{| id := nextId h; due := (now h + Z.max 0 ms)%Z;
            owner := k; args := a |}];
      closures := closures h; dispatched := dispatched h;
      user := user h |}).








End Throttle.
Arguments Closure : clear implicits.
Arguments Timer : clear implicits.
Arguments Host : clear implicits.
End Throttle.

(** ** sleepWave.ts: the class [SleepWave] *)

Module sleepWave.

(** [SleepWaveOptions]: every field may be left out.  A row of
    [sleepData] is [(item[0], item[1])]: duration and type index. *)
Module Options.
Record t : Type := {
  sleepData : option (list (number * number));
  Xmax : option number;
  Xmin : option number;
  sleepType : option (list string);
  sleepColor : option (list string);
  axisColor : option string;
  axisYwidth : option number;
  axisXheight : option number;
  borderRadius : option number;
  lineWidth : option number
}.
End Options.

(** The [HTMLCanvasElement]: its size and the listeners added to it, each
    an event name and the index of the closure [throttle] returned. *)
Record Canvas : Type := {
  width : number;
  height : number;
  listeners : list (string * nat)
}.

Record SleepWave : Type := {
  canvas : option Canvas;
  ctx : option (list CanvasCmd);
  eventList : list string;
  children : list sleep_block.SleepWaveBlock;
  sleepType : list string;
  sleepColor : list string;
  sleepData : list (number * number);
  axisColor : string;
  axisYwidth : number;
  axisXheight : number;
  Xmax : number;
  Xmin : number;
  Xdis : number;
  Ydis : number;
  borderRadius : number;
  lineWidth : number
}.

(** The field initialisers of the class. *)
Definition new : SleepWave :=
  {| canvas := None; ctx := None;
     eventList := ["click"; "mousemove"];
     children := [];
     sleepType := ["深睡"; "浅睡"; "眼动"; "清醒"];
     sleepColor := ["#FFB9E4"; "#D3B4FF"; "#9345FF"; "#5701CD"];
     sleepData := [];
     axisColor := "#EAEAEA";
     axisYwidth := num 50; axisXheight := num 20;
     Xmax := num 800; Xmin := num 0; Xdis := num 1; Ydis := num 1;
     borderRadius := num 12; lineWidth := num 2 |}.

(** The chart together with the page state its blocks act on. *)
Definition Chart : Type := SleepWave * sleep_block.Page.

(** The event loop the chart runs in. *)
Definition State : Type := Throttle.Host MouseEvent.t Chart.

(** [init(dom)]; the arguments are [dom.clientWidth],
    [dom.clientHeight] and the width the host measures for the tooltip
    element. *)
Definition init (clientWidth clientHeight measured : number) (c : Chart)
  : Chart :=
  let '(s, pg) := c in
  ({| canvas :=
        Some {| width := clientWidth; height := clientHeight;
                listeners := [] |};
      ctx := Some [];
      eventList := eventList s; children := children s;
      sleepType := sleepType s; sleepColor := sleepColor s;
      sleepData := sleepData s; axisColor := axisColor s;
      axisYwidth := axisYwidth s; axisXheight := axisXheight s;
      Xmax := Xmax s; Xmin := Xmin s; Xdis := Xdis s; Ydis := Ydis s;
      borderRadius := borderRadius s; lineWidth := lineWidth s |},
   sleep_block.set_tooltip (Tooltip.initTooltip measured) pg).

(** [Object.assign(this, option)] *)
Definition assign (option : Options.t) (s : SleepWave) : SleepWave :=
  {| canvas := canvas s; ctx := ctx s;
     eventList := eventList s; children := children s;
     sleepType := default (sleepType s) (Options.sleepType option);
     sleepColor := default (sleepColor s) (Options.sleepColor option);
     sleepData := default (sleepData s) (Options.sleepData option);
     axisColor := default (axisColor s) (Options.axisColor option);
     axisYwidth := default (axisYwidth s) (Options.axisYwidth option);
     axisXheight := default (axisXheight s) (Options.axisXheight option);
     Xmax := default (Xmax s) (Options.Xmax option);
     Xmin := default (Xmin s) (Options.Xmin option);
     Xdis := Xdis s; Ydis := Ydis s;
     borderRadius := default (borderRadius s) (Options.borderRadius option);
     lineWidth := default (lineWidth s) (Options.lineWidth option) |}.

Definition updateProperties (s : SleepWave) : SleepWave :=
  match canvas s with
  | None => s
  | Some cv =>
      let Xdis' := (width cv - axisYwidth s) / (Xmax s - Xmin s) in
      let Ydis' := (height cv - axisXheight s) / num 4 in
      {| canvas := canvas s; ctx := ctx s;
         eventList := eventList s; children := children s;
         sleepType := sleepType s; sleepColor := sleepColor s;
         sleepData := sleepData s; axisColor := axisColor s;
         axisYwidth := axisYwidth s; axisXheight := axisXheight s;
         Xmax := Xmax s; Xmin := Xmin s;
         Xdis := Xdis'; Ydis := Ydis';
         borderRadius := Math_min (Ydis' / num 4) (borderRadius s);
         lineWidth := lineWidth s |}
  end.

(** What the [reduce] of [draw] carries from one row to the next:
    [[endX, item[1], nowRadius]], or [null] before the first row. *)
Definition Carry : Type := option (number * number * number).

(** The block built for one row. *)
Definition block_of (s : SleepWave) (cv : Canvas) (pre : Carry)
    (item : number * number) : sleep_block.SleepWaveBlock :=
  let startX :=
    match pre with Some (pre0, _, _) => pre0 | None => axisYwidth s end in
  let endX := startX + item.1 * Xdis s in
  let startY := item.2 * Ydis s + borderRadius s in
  let endY := startY + Ydis s - num 2 * borderRadius s in
  let hasStraight := gtb (endX - startX) (num 2 * borderRadius s) in
  let nowRadius :=
    if hasStraight then borderRadius s else (endX - startX) / num 2 in
  sleep_block.new (width cv)
    {| sleep_block.Options.startX := startX;
       sleep_block.Options.startY := startY;
       sleep_block.Options.endX := endX;
       sleep_block.Options.endY := endY;
       sleep_block.Options.hasStraight := hasStraight;
       sleep_block.Options.nowRadius := nowRadius;
       sleep_block.Options.color := index (sleepColor s) item.2;
       sleep_block.Options.title := index (sleepType s) item.2;
       sleep_block.Options.value := item.1;
       sleep_block.Options.borderRadius := borderRadius s;
       sleep_block.Options.lineWidth := lineWidth s |}.

(** The connecting piece drawn before returning from the callback, when
    there is a previous row of another type. *)
Definition connector (s : SleepWave) (pre : Carry) (item : number * number)
    (block : sleep_block.SleepWaveBlock) : list CanvasCmd :=
  match pre with
  | None => []
  | Some (_, pre1, pre2) =>
      if neqb pre1 item.2 then
        let dir := gtb pre1 item.2 in
        let r := borderRadius s in
        let lineX := sleep_block.startX block in
        let lineStartY :=
          if dir then pre1 * Ydis s + r else (pre1 + num 1) * Ydis s - r in
        let lineEndY :=
          if dir then sleep_block.endY block
          else sleep_block.startY block in
        let linearGradient :=
          {| g_x0 := lineX; g_y0 := lineStartY;
             g_x1 := lineX; g_y1 := lineEndY;
             colorStops :=
               [ (num 0, index (sleepColor s) pre1);
                 (num 1, index (sleepColor s) item.2) ] |} in
        [ createLinearGradient lineX lineStartY lineX lineEndY;
          beginPath;
          set_lineWidth (lineWidth s);
          set_strokeStyle (LinearGradient linearGradient);
          moveTo lineX (lineStartY + (if dir then - r else r));
          quadraticCurveTo lineX lineStartY (lineX - pre2) lineStartY;
          quadraticCurveTo lineX lineStartY
            lineX (lineStartY + (if dir then r else - r));
          lineTo lineX (lineEndY + (if dir then - r else r));
          quadraticCurveTo lineX lineEndY
            (lineX + sleep_block.nowRadius block) lineEndY;
          quadraticCurveTo lineX lineEndY
            lineX (lineEndY + (if dir then r else - r));
          closePath;
          set_fillStyle (LinearGradient linearGradient);
          fill;
          stroke ]
      else []
  end.

(** One call of the [reduce] callback: the accumulator, with the blocks
    pushed to [children] and the commands issued so far. *)
Definition draw_item (s : SleepWave) (cv : Canvas)
    (acc : Carry * list sleep_block.SleepWaveBlock * list CanvasCmd)
    (item : number * number)
  : Carry * list sleep_block.SleepWaveBlock * list CanvasCmd :=
  let '(pre, blocks, cmds) := acc in
  let block := block_of s cv pre item in
  (Some (sleep_block.endX block, item.2, sleep_block.nowRadius block),
   blocks ++ [block],
   cmds ++ sleep_block.draw block ++ connector s pre item block).

(** The two axes. *)
Definition axes (s : SleepWave) (cv : Canvas) : list CanvasCmd :=
  [ beginPath;
    set_lineWidth (num 1);
    set_strokeStyle (Color (Some (axisColor s)));
    moveTo (axisYwidth s - num 2) (num 0);
    lineTo (axisYwidth s - num 2) (height cv - axisXheight s);
    lineTo (width cv) (height cv - axisXheight s);
    stroke ].

(** The labels on the vertical axis. *)
Definition labels (s : SleepWave) : list CanvasCmd :=
  [ set_font "14px PingFang SC";
    set_fillStyle (Color (Some "#4E596F66")) ]
  ++ imap (λ index label,
             fillText label (num 4)
               (Ydis s * (num (Z.of_nat index) + num 1 / num 2)))
       (sleepType s).

Definition draw (s : SleepWave) : SleepWave :=
  match ctx s, canvas s with
  | Some log, Some cv =>
      let '(_, blocks, cmds) :=
        fold_left (draw_item s cv) (sleepData s) (None, [], []) in
      {| canvas := canvas s;
         ctx := Some (log ++ axes s cv ++ labels s ++ cmds);
         eventList := eventList s; children := blocks;
         sleepType := sleepType s; sleepColor := sleepColor s;
         sleepData := sleepData s; axisColor := axisColor s;
         axisYwidth := axisYwidth s; axisXheight := axisXheight s;
         Xmax := Xmax s; Xmin := Xmin s; Xdis := Xdis s; Ydis := Ydis s;
         borderRadius := borderRadius s; lineWidth := lineWidth s |}
  | _, _ => s
  end.

(** [this.children.filter(shape => shape.isEventInRegion(...))]: every
    block is asked, in order; the result is the blocks after the calls,
    those that answered [true], and the page. *)
Fixpoint filter_hits (event : MouseEvent.t)
    (shapes : list sleep_block.SleepWaveBlock) (pg : sleep_block.Page)
  : list sleep_block.SleepWaveBlock * list sleep_block.SleepWaveBlock
    * sleep_block.Page :=
  match shapes with
  | [] => ([], [], pg)
  | shape :: rest =>
      let '(hit, shape, pg) :=
        sleep_block.isEventInRegion
          (MouseEvent.clientX event) (MouseEvent.clientY event) shape pg in
      let '(all, hits, pg) := filter_hits event rest pg in
      (shape :: all, if hit then shape :: hits else hits, pg)
  end.

Definition set_children (blocks : list sleep_block.SleepWaveBlock)
    (s : SleepWave) : SleepWave :=
  {| canvas := canvas s; ctx := ctx s;
     eventList := eventList s; children := blocks;
     sleepType := sleepType s; sleepColor := sleepColor s;
     sleepData := sleepData s; axisColor := axisColor s;
     axisYwidth := axisYwidth s; axisXheight := axisXheight s;
     Xmax := Xmax s; Xmin := Xmin s; Xdis := Xdis s; Ydis := Ydis s;
     borderRadius := borderRadius s; lineWidth := lineWidth s |}.

Definition set_ctx (log : list CanvasCmd) (s : SleepWave) : SleepWave :=
  {| canvas := canvas s; ctx := Some log;
     eventList := eventList s; children := children s;
     sleepType := sleepType s; sleepColor := sleepColor s;
     sleepData := sleepData s; axisColor := axisColor s;
     axisYwidth := axisYwidth s; axisXheight := axisXheight s;
     Xmax := Xmax s; Xmin := Xmin s; Xdis := Xdis s; Ydis := Ydis s;
     borderRadius := borderRadius s; lineWidth := lineWidth s |}.

Definition set_canvas (cv : Canvas) (s : SleepWave) : SleepWave :=
  {| canvas := Some cv; ctx := ctx s;
     eventList := eventList s; children := children s;
     sleepType := sleepType s; sleepColor := sleepColor s;
     sleepData := sleepData s; axisColor := axisColor s;
     axisYwidth := axisYwidth s; axisXheight := axisXheight s;
     Xmax := Xmax s; Xmin := Xmin s; Xdis := Xdis s; Ydis := Ydis s;
     borderRadius := borderRadius s; lineWidth := lineWidth s |}.

Definition handleEvent (event : MouseEvent.t) (c : Chart) : Chart :=
  let '(s, pg) := c in
  let '(all, hits, pg) := filter_hits event (children s) pg in
  let pg :=
    fold_left
      (λ pg shape,
         outcome_state
           (sleep_block.emit (MouseEvent.type event) event shape pg))
      hits pg in
  (set_children all s, pg).

(** [canvas.addEventListener(eventName, f)] for a function [f] that was
    not added before. *)
Definition addEventListener (eventName : string) (k : nat) (s : SleepWave)
  : SleepWave :=
  match canvas s with
  | None => s
  | Some cv =>
      set_canvas
        {| width := width cv; height := height cv;
           listeners := listeners cv ++ [(eventName, k)] |} s
  end.

Definition initEvent (st : State) : State :=
  match canvas (Throttle.user st).1 with
  | None => st
  | Some _ =>
      fold_left
        (λ st eventName,
           let '(k, st) := Throttle.throttle handleEvent 50 st in
           let '(s, pg) := Throttle.user st in
           Throttle.set_user (addEventListener eventName k s, pg) st)
        (eventList (Throttle.user st).1) st
  end.

Definition setOption (option : Options.t) (st : State) : State :=
  let '(s, pg) := Throttle.user st in
  match ctx s, canvas s with
  | Some log, Some cv =>
      let s :=
        set_ctx (log ++ [clearRect (num 0) (num 0) (width cv) (height cv)])
          s in
      let s := assign option s in
      let s := updateProperties s in
      let s := draw s in
      initEvent (Throttle.set_user (s, pg) st)
  | _, _ => st
  end.


End sleepWave.

(** ** SleepChart.vue: the data of the example page

    The two [ref]s of the page and the functions that write them.
    [Math.random] is a parameter of [generateRandomData]: the sequence of
    the numbers its calls return.  The index [removeDataItem] gets from the
    table is an integer. *)

Module SleepChart.

Record SleepDataItem : Type := { duration : number; type : number }.

(** [sleepData.value] and [newDataItem.value] *)
Record Page : Type := {
  sleepData : list SleepDataItem;
  newDataItem : SleepDataItem
}.

(** [Math.floor(x)]. *)
Definition Math_floor (x : number) : number := num (Qfloor x).

(** [generateRandomData]; [random i] is what the call number [i] of
    [Math.random()] returns: one call for [dataCount], then two per row.
    The loop [for (let i = 0; i < dataCount; i++)] runs once for each
    integer [i >= 0] below [dataCount]. *)
Definition generateRandomData (random : nat → number) (pg : Page) : Page :=
  let dataCount := Math_floor (random 0%nat * num 10) + num 5 in
  let data :=
    fold_left
      (λ data i,
         data
         ++ [{| duration :=
                  Math_floor (random (2 * i + 1)%nat * num 300) + num 30;
                type := Math_floor (random (2 * i + 2)%nat * num 4) |}])
      (seq 0 (Z.to_nat (Qceiling dataCount))) [] in
  {| sleepData := data; newDataItem := newDataItem pg |}.

Definition clearData (pg : Page) : Page :=
  {| sleepData := []; newDataItem := newDataItem pg |}.

Definition loadSampleData (pg : Page) : Page :=
  {| sleepData :=
       [ {| duration := num 120; type := num 0 |};
         {| duration := num 80; type := num 1 |};
         {| duration := num 30; type := num 2 |};
         {| duration := num 60; type := num 3 |};
         {| duration := num 200; type := num 0 |};
         {| duration := num 150; type := num 1 |};
         {| duration := num 45; type := num 2 |};
         {| duration := num 90; type := num 1 |} ];
     newDataItem := newDataItem pg |}.

(** The page as [setup] leaves it: the form at its initial value, the
    sample data loaded. *)
Definition setup : Page :=
  loadSampleData
    {| sleepData := [];
       newDataItem := {| duration := num 60; type := num 0 |} |}.

Definition addDataItem (pg : Page) : Page :=
  if gtb (duration (newDataItem pg)) (num 0) then
    {| sleepData :=
         sleepData pg
         ++ [{| duration := duration (newDataItem pg);
                type := type (newDataItem pg) |}];
       newDataItem := {| duration := num 60; type := num 0 |} |}
  else pg.

(** [arr.splice(index, 1)] for an integer [index]: a negative index counts
    from the end, an index past the end removes nothing. *)
Definition splice1 {A : Type} (index : Z) (arr : list A) : list A :=
  let len := Z.of_nat (length arr) in
  let start :=
    if (index <? 0)%Z then Z.max (len + index) 0 else Z.min index len in
  take (Z.to_nat start) arr ++ drop (S (Z.to_nat start)) arr.

Definition removeDataItem (index : Z) (pg : Page) : Page :=
  {| sleepData := splice1 index (sleepData pg);
     newDataItem := newDataItem pg |}.

(** What the user can do to the page: edit the form ([v-model]), or press
    one of the buttons. *)
Inductive Action : Type :=
| editForm (item : SleepDataItem)
| add
| removeAt (index : Z)
| clear
| loadSample
| generateRandom (random : nat → number).

Definition act (pg : Page) (a : Action) : Page :=
  match a with
  | editForm item => {| sleepData := sleepData pg; newDataItem := item |}
  | add => addDataItem pg
  | removeAt index => removeDataItem index pg
  | clear => clearData pg
  | loadSample => loadSampleData pg
  | generateRandom random => generateRandomData random pg
  end.

End SleepChart.

(** ** Vocabulary of the statements *)

(** The open box a block answers [true] on. *)
Definition in_open_box (b : sleep_block.SleepWaveBlock) (p : Point.t) : Prop :=
  let width := sleep_block.endX b - sleep_block.startX b in
  let height := sleep_block.endY b - sleep_block.startY b in
  sleep_block.startX b < Point.x p ∧ Point.x p < sleep_block.startX b + width
  ∧ sleep_block.startY b < Point.y p
  ∧ Point.y p < sleep_block.startY b + height.

(** The box [[startX, startX+width) x [startY, startY+height)], closed on
    the left and on the top. *)
Definition in_half_open_box (b : sleep_block.SleepWaveBlock) (p : Point.t)
  : Prop :=
  let width := sleep_block.endX b - sleep_block.startX b in
  let height := sleep_block.endY b - sleep_block.startY b in
  sleep_block.startX b ≤ Point.x p ∧ Point.x p < sleep_block.startX b + width
  ∧ sleep_block.startY b ≤ Point.y p
  ∧ Point.y p < sleep_block.startY b + height.

(** A block with the given corners, as [draw] would build it on a canvas
    800 wide. *)
Definition block_at (startX startY endX endY : Z) : sleep_block.SleepWaveBlock :=
  sleep_block.new (num 800)
    {| sleep_block.Options.startX := num startX;
       sleep_block.Options.startY := num startY;
       sleep_block.Options.endX := num endX;
       sleep_block.Options.endY := num endY;
       sleep_block.Options.hasStraight := true;
       sleep_block.Options.nowRadius := num 12;
       sleep_block.Options.color := Some "#FFB9E4";
       sleep_block.Options.title := Some "deep";
       sleep_block.Options.value := num 120;
       sleep_block.Options.borderRadius := num 12;
       sleep_block.Options.lineWidth := num 2 |}.

(** A page whose canvas sits at [(left, top)] in the viewport, with the
    tooltip shown. *)
Definition page_at (left top : Z) : sleep_block.Page :=
  {| sleep_block.cursor := "pointer";
     sleep_block.tooltip := Tooltip.set_visible true (Tooltip.initTooltip (num 100));
     sleep_block.bbox_left := num left;
     sleep_block.bbox_top := num top;
     sleep_block.jobs := [] |}.

(** The registry after the calls [on(type, handler)] of [regs], in order. *)
Definition register {H : Type} (regs : list (string * H))
  : canvas_event.Event H :=
  fold_left (λ ev r, canvas_event.on r.1 r.2 ev) regs canvas_event.create.

(** The handlers [regs] registers for [type], in registration order and
    with repetitions. *)
Definition handlers_for {H : Type} (type : string) (regs : list (string * H))
  : list H :=
  (filter (λ r, r.1 = type) regs).*2.

(** Handlers that only record that they were called, and with what; those
    that [throws] names throw after recording. *)
Definition recording {H P E : Type} (throws : H → option E)
    (h : H) (p : P) (calls : list (H * P)) : Outcome E (list (H * P)) :=
  match throws h with
  | None => Returned (calls ++ [(h, p)])
  | Some e => Thrown e (calls ++ [(h, p)])
  end.

(** The chart inside the event loop. *)
Definition chart_of (st : sleepWave.State) : sleepWave.SleepWave :=
  (Throttle.user st).1.

(** [init] has run: the chart has its canvas and its 2D context. *)
Definition initialized (s : sleepWave.SleepWave) : Prop :=
  ∃ log cv, sleepWave.ctx s = Some log ∧ sleepWave.canvas s = Some cv.

(** A new chart mounted in a box of the given size, at a time when the
    clock reads 1000. *)
Definition mounted (clientWidth clientHeight : Z) : sleepWave.State :=
  Throttle.boot 1000
    (sleepWave.init (num clientWidth) (num clientHeight) (num 100)
       (sleepWave.new, page_at 0 0)).

(** An option object with the given fields and no others. *)
Definition options (sleepData : option (list (number * number)))
    (sleepType sleepColor : option (list string))
    (axisXheight borderRadius : option number) : sleepWave.Options.t :=
  {| sleepWave.Options.sleepData := sleepData;
     sleepWave.Options.Xmax := None;
     sleepWave.Options.Xmin := None;
     sleepWave.Options.sleepType := sleepType;
     sleepWave.Options.sleepColor := sleepColor;
     sleepWave.Options.axisColor := None;
     sleepWave.Options.axisYwidth := None;
     sleepWave.Options.axisXheight := axisXheight;
     sleepWave.Options.borderRadius := borderRadius;
     sleepWave.Options.lineWidth := None |}.

(** The blocks and the commands the [reduce] of [draw] produces for [rows]
    when it starts from the carry [pre]. *)
Fixpoint blocks_from (s : sleepWave.SleepWave) (cv : sleepWave.Canvas)
    (pre : sleepWave.Carry) (rows : list (number * number))
  : list sleep_block.SleepWaveBlock :=
  match rows with
  | [] => []
  | item :: rest =>
      let b := sleepWave.block_of s cv pre item in
      b :: blocks_from s cv
             (Some (sleep_block.endX b, item.2, sleep_block.nowRadius b)) rest
  end.

Fixpoint cmds_from (s : sleepWave.SleepWave) (cv : sleepWave.Canvas)
    (pre : sleepWave.Carry) (rows : list (number * number))
  : list CanvasCmd :=
  match rows with
  | [] => []
  | item :: rest =>
      let b := sleepWave.block_of s cv pre item in
      sleep_block.draw b ++ sleepWave.connector s pre item b
      ++ cmds_from s cv
           (Some (sleep_block.endX b, item.2, sleep_block.nowRadius b)) rest
  end.



(** Where a block starts: at the end of the previous one, or at the
    vertical axis. *)
Definition start_of (s : sleepWave.SleepWave) (pre : sleepWave.Carry)
  : number :=
  match pre with
  | Some (pre0, _, _) => pre0
  | None => sleepWave.axisYwidth s
  end.

(** The closure [throttle(this.handleEvent, 50)] creates. *)
Definition handler_closure : Throttle.Closure MouseEvent.t sleepWave.Chart :=
  {| Throttle.func := sleepWave.handleEvent; Throttle.delay := 50;
     Throttle.timeoutId := None; Throttle.lastExecTime := 0 |}.

(** The canvas of [s] with the listeners [ls] added after those it has. *)
Definition add_listeners (ls : list (string * nat)) (s : sleepWave.SleepWave)
  : sleepWave.SleepWave :=
  match sleepWave.canvas s with
  | None => s
  | Some cv =>
      sleepWave.set_canvas
        {| sleepWave.width := sleepWave.width cv;
           sleepWave.height := sleepWave.height cv;
           sleepWave.listeners := sleepWave.listeners cv ++ ls |} s
  end.

(** One listener per name, on the closures [first], [first + 1], ... *)
Definition new_listeners (first : nat) (names : list string)
  : list (string * nat) :=
  imap (λ i name, (name, (first + i)%nat)) names.

(** What [setOption] does to the chart before [initEvent]. *)
Definition render (option : sleepWave.Options.t) (s : sleepWave.SleepWave)
  : sleepWave.SleepWave :=
  match sleepWave.ctx s, sleepWave.canvas s with
  | Some log, Some cv =>
      sleepWave.draw
        (sleepWave.updateProperties
           (sleepWave.assign option
              (sleepWave.set_ctx
                 (log ++ [clearRect (num 0) (num 0)
                            (sleepWave.width cv) (sleepWave.height cv)])
                 s)))
  | _, _ => s
  end.

(** Two charts agree on everything the layout of a block reads. *)
Definition same_style (x y : sleepWave.SleepWave) : Prop :=
  sleepWave.axisYwidth x = sleepWave.axisYwidth y
  ∧ sleepWave.Xdis x = sleepWave.Xdis y
  ∧ sleepWave.Ydis x = sleepWave.Ydis y
  ∧ sleepWave.borderRadius x = sleepWave.borderRadius y
  ∧ sleepWave.sleepColor x = sleepWave.sleepColor y
  ∧ sleepWave.sleepType x = sleepWave.sleepType y
  ∧ sleepWave.lineWidth x = sleepWave.lineWidth y.

(** Three types instead of the four of the defaults. *)
Definition three_types : sleepWave.Options.t :=
  options None (Some ["deep"; "light"; "awake"])
    (Some ["#FFB9E4"; "#D3B4FF"; "#5701CD"]) None None.









(** The option object of the end-to-end example and the chart it gives on
    a canvas of 800 by 300, before drawing. *)
Definition two_rows : sleepWave.Options.t :=
  options (Some [(num 120, num 0); (num 80, num 1)]) None None None None.

Definition sample_chart : sleepWave.SleepWave :=
  sleepWave.updateProperties
    (sleepWave.assign two_rows (chart_of (mounted 800 300))).

(** [setOption] called with each option object of [os] in turn. *)
Definition setOptions (os : list sleepWave.Options.t) (st : sleepWave.State)
  : sleepWave.State :=
  fold_left (λ st o, sleepWave.setOption o st) os st.












(** The handlers a registry holds for [type], in calling order. *)
Definition registered {H : Type} (type : string) (ev : canvas_event.Event H)
  : list H :=
  default [] (canvas_event._listener ev !! type).

(** The block came out of the constructor: its registry holds
    [handleClick] for [click] and [handleMouseMove] for [mousemove]. *)
Definition constructed (b : sleep_block.SleepWaveBlock) : Prop :=
  sleep_block.super b
  = canvas_event.on "mousemove" sleep_block.handleMouseMove
      (canvas_event.on "click" sleep_block.handleClick canvas_event.create).

(** The test of [isEventInRegion] on a canvas position. *)
Definition inside (p : Point.t) (b : sleep_block.SleepWaveBlock) : bool :=
  ltb (sleep_block.startX b) (Point.x p)
  && ltb (Point.x p)
       (sleep_block.startX b + (sleep_block.endX b - sleep_block.startX b))
  && ltb (sleep_block.startY b) (Point.y p)
  && ltb (Point.y p)
       (sleep_block.startY b + (sleep_block.endY b - sleep_block.startY b)).

(** What a negative hit test does to the page. *)
Definition pointer_left (pg : sleep_block.Page) : sleep_block.Page :=
  sleep_block.set_tooltip
    (Tooltip.set_visible false
       (sleep_block.tooltip (sleep_block.set_cursor "default" pg)))
    (sleep_block.set_cursor "default" pg).

(** The tooltip element is shown exactly when [visible] is set. *)
Definition display_mirrors (tt : Tooltip.t) : Prop :=
  Tooltip.style_display tt = if Tooltip.visible tt then "block" else "none".

(** Where a path begins (its first [moveTo]) and where the pen is after its
    last segment. *)
Fixpoint path_start (cmds : list CanvasCmd) : option (number * number) :=
  match cmds with
  | [] => None
  | moveTo x y :: _ => Some (x, y)
  | _ :: rest => path_start rest
  end.

Definition pen_after (cmds : list CanvasCmd) : option (number * number) :=
  fold_left
    (λ pen c,
       match c with
       | moveTo x y | lineTo x y | quadraticCurveTo _ _ x y => Some (x, y)
       | _ => pen
       end)
    cmds None.





(** Every row of the page data has a positive duration. *)
Definition positive_durations (pg : SleepChart.Page) : Prop :=
  ∀ item, item ∈ SleepChart.sleepData pg → 0 < SleepChart.duration item.

(** [Math.random()] returns a number in [[0, 1)]. *)
Definition unit_interval (random : nat → number) : Prop :=
  ∀ i, 0 ≤ random i ∧ random i < 1.

(** An action whose random numbers, if it draws any, are in [[0, 1)]. *)
Definition allowed (a : SleepChart.Action) : Prop :=
  match a with
  | SleepChart.generateRandom random => unit_interval random
  | _ => True
  end.

(** The page after the user's [actions], in turn. *)
Definition after (actions : list SleepChart.Action) (pg : SleepChart.Page)
  : SleepChart.Page :=
  fold_left SleepChart.act actions pg.


(** A source of random numbers that always returns 1/2. *)
Definition halves : nat → number := λ _, num 1 / num 2.

(** * Properties *)

(** ** Numbers *)

Lemma ltb_lt (a b : number) : ltb a b = true ↔ a < b.
Proof. unfold ltb. apply bool_decide_eq_true. Qed.

Lemma ltb_ge (a b : number) : ltb a b = false ↔ b ≤ a.
Proof.
  unfold ltb. rewrite bool_decide_eq_false. split.
  - apply Qcnot_lt_le.
  - apply Qcle_not_lt.
Qed.



Lemma Math_min_le_l (a b : number) : Math_min a b ≤ a.
Proof.
  unfold Math_min. destruct (ltb b a) eqn:Hlt.
  - apply Qclt_le_weak. by apply ltb_lt.
  - apply Qcle_refl.
Qed.

Lemma Math_min_le_r (a b : number) : Math_min a b ≤ b.
Proof.
  unfold Math_min. destruct (ltb b a) eqn:Hlt.
  - apply Qcle_refl.
  - by apply ltb_ge.
Qed.

Lemma Math_min_cases (a b : number) : Math_min a b = a ∨ Math_min a b = b.
Proof. unfold Math_min. destruct (ltb b a); auto. Qed.

Lemma Math_min_idem (a b : number) : Math_min a (Math_min a b) = Math_min a b.
Proof.
  unfold Math_min at 1. destruct (ltb (Math_min a b) a) eqn:Hlt; [done|].
  apply ltb_ge in Hlt. apply Qcle_antisym; [done | apply Math_min_le_l].
Qed.

(** ** sleep_block.ts: hit testing *)

Section HitTest.
Import sleep_block.

Lemma isEventInRegion_point clientX clientY b pg :
  point (isEventInRegion clientX clientY b pg).1.2
  = getEventPosition clientX clientY pg.
Proof.
  unfold isEventInRegion. cbn.
  by destruct (_ && _ && _ && _).
Qed.

Lemma isEventInRegion_true_iff clientX clientY b pg :
  (isEventInRegion clientX clientY b pg).1.1 = true
  ↔ in_open_box b (getEventPosition clientX clientY pg).
Proof.
  unfold isEventInRegion, in_open_box. cbn.
  destruct (_ && _ && _ && _) eqn:Hbox; cbn.
  - split; [intros _|done].
    rewrite !andb_true_iff, !ltb_lt in Hbox. tauto.
  - split; [done|]. intros Hin.
    rewrite <- not_true_iff_false in Hbox. destruct Hbox.
    rewrite !andb_true_iff, !ltb_lt. tauto.
Qed.
End HitTest.

(** C1 (as amended).  [isEventInRegion] stores the pointer position minus
    the offset of the canvas in the block, and answers [true] exactly on
    the open box [(startX, startX+width) x (startY, startY+height)]: a point
    with [x = startX + width] gets [false], and so does one with
    [x = startX]. *)
Theorem isEventInRegion_open_box :
  ∀ (clientX clientY : number) (b : sleep_block.SleepWaveBlock)
    (pg : sleep_block.Page),
    let p := {| Point.x := clientX - sleep_block.bbox_left pg;
                Point.y := clientY - sleep_block.bbox_top pg |} in
    let r := sleep_block.isEventInRegion clientX clientY b pg in
    sleep_block.point r.1.2 = p
    ∧ (r.1.1 = true ↔ in_open_box b p)
    ∧ (Point.x p
         = sleep_block.startX b + (sleep_block.endX b - sleep_block.startX b)
       → r.1.1 = false)
    ∧ (Point.x p = sleep_block.startX b → r.1.1 = false).
Proof.
  intros clientX clientY b pg p r.
  pose proof (isEventInRegion_true_iff clientX clientY b pg) as Hiff.
  fold r in Hiff. change (sleep_block.getEventPosition clientX clientY pg)
    with p in Hiff.
  split; [apply isEventInRegion_point|]. split; [exact Hiff|].
  split; intros Hx; apply not_true_iff_false; rewrite Hiff;
    unfold in_open_box; cbn zeta; rewrite Hx; intros (H1 & H2 & _).
  - by apply Qclt_not_eq in H2.
  - by apply Qclt_not_eq in H1.
Qed.

(** C1, counterexample.  For the block with corners (0,0) and (10,10) on a
    canvas at the origin, the pointer at (0,5) lies in the half-open box
    [[0,10) x [0,10)], yet the answer is [false]. *)
Lemma isEventInRegion_half_open_counterexample :
  ¬ ∀ (clientX clientY : number) (b : sleep_block.SleepWaveBlock)
      (pg : sleep_block.Page),
      (sleep_block.isEventInRegion clientX clientY b pg).1.1 = true
      ↔ in_half_open_box b (sleep_block.getEventPosition clientX clientY pg).
Proof.
  intros Hclaim.
  specialize (Hclaim (num 0) (num 5) (block_at 0 0 10 10) (page_at 0 0)).
  assert (Hin : in_half_open_box (block_at 0 0 10 10)
                  (sleep_block.getEventPosition (num 0) (num 5) (page_at 0 0))).
  { unfold in_half_open_box. cbn zeta. repeat split; compute_done. }
  apply Hclaim in Hin. vm_compute in Hin. discriminate Hin.
Qed.

(** C7.  When [isEventInRegion] answers [false] it has set the cursor to
    [default] and hidden the tooltip; when it answers [true] the page
    (cursor, tooltip visibility, position and content) is as it was. *)
Theorem isEventInRegion_pointer_left :
  ∀ (clientX clientY : number) (b : sleep_block.SleepWaveBlock)
    (pg : sleep_block.Page),
    let r := sleep_block.isEventInRegion clientX clientY b pg in
    (r.1.1 = false →
       sleep_block.cursor r.2 = "default"
       ∧ Tooltip.visible (sleep_block.tooltip r.2) = false
       ∧ Tooltip.style_display (sleep_block.tooltip r.2) = "none"
       ∧ Tooltip.pos (sleep_block.tooltip r.2)
         = Tooltip.pos (sleep_block.tooltip pg)
       ∧ Tooltip.blockInfo (sleep_block.tooltip r.2)
         = Tooltip.blockInfo (sleep_block.tooltip pg))
    ∧ (r.1.1 = true → r.2 = pg).
Proof.
  intros clientX clientY b pg r. subst r.
  unfold sleep_block.isEventInRegion. cbn.
  destruct (_ && _ && _ && _); cbn; split; done.
Qed.

(** A negative and a positive hit on the block with corners (0,0) and
    (10,10). *)
Lemma isEventInRegion_pointer_left_witness :
  (sleep_block.cursor
     (sleep_block.isEventInRegion (num 20) (num 5)
        (block_at 0 0 10 10) (page_at 0 0)).2 = "default"
   ∧ Tooltip.visible
       (sleep_block.tooltip
          (sleep_block.isEventInRegion (num 20) (num 5)
             (block_at 0 0 10 10) (page_at 0 0)).2) = false)
  ∧ (sleep_block.isEventInRegion (num 5) (num 5)
       (block_at 0 0 10 10) (page_at 0 0)).2 = page_at 0 0.
Proof.
  pose proof (isEventInRegion_pointer_left (num 20) (num 5)
                (block_at 0 0 10 10) (page_at 0 0)) as [Hneg _].
  pose proof (isEventInRegion_pointer_left (num 5) (num 5)
                (block_at 0 0 10 10) (page_at 0 0)) as [_ Hpos].
  split.
  - destruct Hneg as (Hc & Hv & _); [vm_compute; reflexivity|]. by split.
  - apply Hpos. vm_compute. reflexivity.
Defined.

(** ** canvas_event.ts *)

Section EventHub.
Context {H P W E : Type}.
Variable kind : P → option string.
Variable run : H → P → W → Outcome E W.

Lemma on_lookup (type type' : string) (h : H) (ev : canvas_event.Event H) :
  default [] (canvas_event._listener (canvas_event.on type' h ev) !! type)
  = default [] (canvas_event._listener ev !! type)
    ++ (if decide (type' = type) then [h] else []).
Proof.
  unfold canvas_event.on. cbn.
  destruct (decide (type' = type)) as [->|Hne].
  - rewrite lookup_insert_eq. cbn.
    destruct (canvas_event._listener ev !! type) as [l|] eqn:Hl.
    + by rewrite Hl.
    + by rewrite lookup_insert_eq.
  - rewrite lookup_insert_ne by done.
    destruct (canvas_event._listener ev !! type') as [l|] eqn:Hl.
    + by rewrite app_nil_r.
    + rewrite lookup_insert_ne by done. by rewrite app_nil_r.
Qed.

Lemma register_lookup_from (type : string) (regs : list (string * H))
    (ev : canvas_event.Event H) :
  default []
    (canvas_event._listener
       (fold_left (λ ev r, canvas_event.on r.1 r.2 ev) regs ev) !! type)
  = default [] (canvas_event._listener ev !! type) ++ handlers_for type regs.
Proof.
  revert ev. induction regs as [|[t h] regs IH]; intros ev.
  - cbn. by rewrite app_nil_r.
  - cbn [fold_left]. rewrite IH, on_lookup. unfold handlers_for.
    rewrite filter_cons. cbn [fst snd].
    destruct (decide (t = type)).
    + by rewrite <- app_assoc.
    + by rewrite app_nil_r.
Qed.

Lemma register_lookup (type : string) (regs : list (string * H)) :
  default [] (canvas_event._listener (register regs) !! type)
  = handlers_for type regs.
Proof. unfold register. by rewrite register_lookup_from. Qed.

Lemma emit_call_each (type : string) (p : P) (ev : canvas_event.Event H)
    (w : W) :
  kind p ≠ None →
  canvas_event.emit kind run type (Some p) ev w
  = canvas_event.call_each run
      (default [] (canvas_event._listener ev !! type)) p w.
Proof.
  intros Hk. unfold canvas_event.emit.
  destruct (kind p); [|done].
  by destruct (canvas_event._listener ev !! type).
Qed.

Lemma emit_absent (type : string) (ev : canvas_event.Event H) (w : W) :
  canvas_event.emit kind run type None ev w = Returned w.
Proof. done. Qed.

Lemma emit_no_kind (type : string) (p : P) (ev : canvas_event.Event H)
    (w : W) :
  kind p = None → canvas_event.emit kind run type (Some p) ev w = Returned w.
Proof. intros Hk. unfold canvas_event.emit. by rewrite Hk. Qed.
End EventHub.

Section Recording.
Context {H P E : Type}.
Variable throws : H → option E.


End Recording.



(** ** sleepWave.ts: the layout fold *)

Section Layout.
Import sleepWave.

Lemma fold_draw_item s cv rows pre blocks cmds :
  (fold_left (draw_item s cv) rows (pre, blocks, cmds)).1.2
    = blocks ++ blocks_from s cv pre rows
  ∧ (fold_left (draw_item s cv) rows (pre, blocks, cmds)).2
    = cmds ++ cmds_from s cv pre rows.
Proof.
  revert pre blocks cmds.
  induction rows as [|item rows IH]; intros pre blocks cmds.
  - cbn. by rewrite !app_nil_r.
  - cbn [fold_left blocks_from cmds_from].
    change (draw_item s cv (pre, blocks, cmds) item)
      with (Some (sleep_block.endX (block_of s cv pre item), item.2,
                  sleep_block.nowRadius (block_of s cv pre item)),
            blocks ++ [block_of s cv pre item],
            cmds ++ sleep_block.draw (block_of s cv pre item)
              ++ connector s pre item (block_of s cv pre item)).
    destruct (IH (Some (sleep_block.endX (block_of s cv pre item), item.2,
                        sleep_block.nowRadius (block_of s cv pre item)))
                (blocks ++ [block_of s cv pre item])
                (cmds ++ sleep_block.draw (block_of s cv pre item)
                   ++ connector s pre item (block_of s cv pre item)))
      as [Hblocks Hcmds].
    split.
    + etrans; [exact Hblocks|]. by rewrite <- app_assoc.
    + etrans; [exact Hcmds|]. by rewrite <- !app_assoc.
Qed.

Lemma draw_children s log cv :
  ctx s = Some log → canvas s = Some cv →
  children (draw s) = blocks_from s cv None (sleepData s).
Proof.
  intros Hctx Hcv. unfold draw. rewrite Hctx, Hcv.
  pose proof (fold_draw_item s cv (sleepData s) None [] []) as [Hb _].
  destruct (fold_left _ _ _) as [[pre blocks] cmds]. cbn in *. done.
Qed.

Lemma draw_ctx s log cv :
  ctx s = Some log → canvas s = Some cv →
  ctx (draw s)
  = Some (log ++ axes s cv ++ labels s ++ cmds_from s cv None (sleepData s)).
Proof.
  intros Hctx Hcv. unfold draw. rewrite Hctx, Hcv.
  pose proof (fold_draw_item s cv (sleepData s) None [] []) as [_ Hc].
  destruct (fold_left _ _ _) as [[pre blocks] cmds]. cbn in *. by subst.
Qed.

(** [draw] writes [children] and the context only. *)
Lemma draw_frame s :
  canvas (draw s) = canvas s ∧ eventList (draw s) = eventList s
  ∧ sleepType (draw s) = sleepType s ∧ sleepColor (draw s) = sleepColor s
  ∧ sleepData (draw s) = sleepData s ∧ axisColor (draw s) = axisColor s
  ∧ axisYwidth (draw s) = axisYwidth s
  ∧ axisXheight (draw s) = axisXheight s
  ∧ Xmax (draw s) = Xmax s ∧ Xmin (draw s) = Xmin s
  ∧ Xdis (draw s) = Xdis s ∧ Ydis (draw s) = Ydis s
  ∧ borderRadius (draw s) = borderRadius s
  ∧ lineWidth (draw s) = lineWidth s.
Proof.
  unfold draw.
  destruct (ctx s) eqn:Hctx, (canvas s) as [cv|] eqn:Hcv;
    try (repeat split; done).
  destruct (fold_left _ _ _) as [[pre blocks] cmds]. repeat split; done.
Qed.

Lemma block_of_startX s cv pre item :
  sleep_block.startX (block_of s cv pre item) = start_of s pre.
Proof. by destruct pre as [[[? ?] ?]|]. Qed.

Lemma block_of_endX s cv pre item :
  sleep_block.endX (block_of s cv pre item)
  = start_of s pre + item.1 * Xdis s.
Proof. by destruct pre as [[[? ?] ?]|]. Qed.








End Layout.


(** ** sleepWave.ts: [setOption] *)

Section SetOption.
Import sleepWave.

Lemma add_listeners_nil s : add_listeners [] s = s.
Proof.
  unfold add_listeners. destruct s as [[cv|] ? ? ? ? ? ? ? ? ? ? ? ? ? ? ?];
    [|done].
  destruct cv. unfold set_canvas. cbn. by rewrite app_nil_r.
Qed.

Lemma add_listeners_app ls1 ls2 s :
  add_listeners ls2 (add_listeners ls1 s) = add_listeners (ls1 ++ ls2) s.
Proof.
  unfold add_listeners. destruct s as [[cv|] ? ? ? ? ? ? ? ? ? ? ? ? ? ? ?];
    [|done].
  unfold set_canvas. cbn. by rewrite app_assoc.
Qed.

Lemma addEventListener_add name k s :
  addEventListener name k s = add_listeners [(name, k)] s.
Proof. done. Qed.

Lemma new_listeners_cons first name names :
  new_listeners first (name :: names)
  = (name, first) :: new_listeners (S first) names.
Proof.
  unfold new_listeners. cbn [imap]. rewrite Nat.add_0_r. f_equal.
  apply imap_ext. intros i x _. cbn. f_equal. lia.
Qed.

Lemma add_listeners_canvas ls s cv :
  canvas s = Some cv →
  canvas (add_listeners ls s)
  = Some {| width := width cv; height := height cv;
            listeners := listeners cv ++ ls |}.
Proof. intros Hcv. unfold add_listeners. by rewrite Hcv. Qed.

Lemma initEvent_fold names :
  ∀ (st : State) s pg cv,
    Throttle.user st = (s, pg) → canvas s = Some cv →
    fold_left
      (λ st eventName,
         let '(k, st) := Throttle.throttle handleEvent 50 st in
         let '(s, pg) := Throttle.user st in
         Throttle.set_user (addEventListener eventName k s, pg) st)
      names st
    = {| Throttle.now := Throttle.now st;
         Throttle.nextId := Throttle.nextId st;
         Throttle.timers := Throttle.timers st;
         Throttle.closures :=
           Throttle.closures st ++ map (λ _, handler_closure) names;
         Throttle.dispatched := Throttle.dispatched st;
         Throttle.user :=
           (add_listeners
              (new_listeners (length (Throttle.closures st)) names) s,
            pg) |}.
Proof.
  induction names as [|name names IH]; intros st s pg cv Hu Hcv.
  - cbn [fold_left map]. unfold new_listeners. cbn [imap].
    rewrite add_listeners_nil, app_nil_r, <- Hu. by destruct st.
  - cbn [fold_left]. unfold Throttle.throttle at 2.
    cbn [Throttle.set_closures Throttle.user]. rewrite Hu.
    erewrite IH; [|reflexivity|].
    + cbn [Throttle.set_user Throttle.set_closures Throttle.now
             Throttle.nextId Throttle.timers
             Throttle.closures Throttle.dispatched Throttle.user map].
      rewrite addEventListener_add, add_listeners_app.
      rewrite new_listeners_cons, length_app. cbn [length].
      rewrite Nat.add_1_r, <- app_assoc. done.
    + rewrite addEventListener_add. by apply add_listeners_canvas.
Qed.

Lemma initEvent_unfold (st : State) s pg cv :
  Throttle.user st = (s, pg) → canvas s = Some cv →
  initEvent st
  = {| Throttle.now := Throttle.now st;
       Throttle.nextId := Throttle.nextId st;
       Throttle.timers := Throttle.timers st;
       Throttle.closures :=
         Throttle.closures st
         ++ map (λ _, handler_closure) (eventList s);
       Throttle.dispatched := Throttle.dispatched st;
       Throttle.user :=
         (add_listeners
            (new_listeners (length (Throttle.closures st)) (eventList s))
            s,
          pg) |}.
Proof.
  intros Hu Hcv. unfold initEvent. rewrite Hu. cbn [fst]. rewrite Hcv.
  by apply (initEvent_fold _ st s pg cv).
Qed.

(** [assign] and [updateProperties] leave the canvas, the context, the
    event names and the blocks alone. *)
Lemma assign_frame o s :
  canvas (assign o s) = canvas s ∧ ctx (assign o s) = ctx s
  ∧ eventList (assign o s) = eventList s
  ∧ children (assign o s) = children s.
Proof. done. Qed.

Lemma updateProperties_frame s :
  canvas (updateProperties s) = canvas s
  ∧ ctx (updateProperties s) = ctx s
  ∧ eventList (updateProperties s) = eventList s
  ∧ children (updateProperties s) = children s
  ∧ sleepType (updateProperties s) = sleepType s
  ∧ sleepColor (updateProperties s) = sleepColor s
  ∧ sleepData (updateProperties s) = sleepData s
  ∧ axisYwidth (updateProperties s) = axisYwidth s
  ∧ axisXheight (updateProperties s) = axisXheight s
  ∧ Xmax (updateProperties s) = Xmax s ∧ Xmin (updateProperties s) = Xmin s
  ∧ lineWidth (updateProperties s) = lineWidth s.
Proof. unfold updateProperties. by destruct (canvas s) eqn:Hcv. Qed.

Lemma render_canvas o s : canvas (render o s) = canvas s.
Proof.
  unfold render. destruct (ctx s) eqn:Hctx, (canvas s) eqn:Hcv; try done.
  destruct (draw_frame (updateProperties (assign o (set_ctx
    (l ++ [clearRect (num 0) (num 0) (width c) (height c)]) s)))) as [-> _].
  destruct (updateProperties_frame (assign o (set_ctx
    (l ++ [clearRect (num 0) (num 0) (width c) (height c)]) s))) as [-> _].
  done.
Qed.

Lemma render_eventList o s : eventList (render o s) = eventList s.
Proof.
  unfold render. destruct (ctx s) eqn:Hctx, (canvas s) eqn:Hcv; try done.
  destruct (draw_frame (updateProperties (assign o (set_ctx
    (l ++ [clearRect (num 0) (num 0) (width c) (height c)]) s))))
    as (_ & -> & _).
  destruct (updateProperties_frame (assign o (set_ctx
    (l ++ [clearRect (num 0) (num 0) (width c) (height c)]) s)))
    as (_ & _ & -> & _).
  done.
Qed.

Lemma setOption_unfold o (st : State) s pg :
  Throttle.user st = (s, pg) → initialized s →
  setOption o st
  = {| Throttle.now := Throttle.now st;
       Throttle.nextId := Throttle.nextId st;
       Throttle.timers := Throttle.timers st;
       Throttle.closures :=
         Throttle.closures st
         ++ map (λ _, handler_closure) (eventList s);
       Throttle.dispatched := Throttle.dispatched st;
       Throttle.user :=
         (add_listeners
            (new_listeners (length (Throttle.closures st)) (eventList s))
            (render o s),
          pg) |}.
Proof.
  intros Hu (log & cv & Hctx & Hcv).
  assert (Hr : render o s
               = draw (updateProperties (assign o (set_ctx
                   (log ++ [clearRect (num 0) (num 0) (width cv) (height cv)])
                   s)))).
  { unfold render. by rewrite Hctx, Hcv. }
  unfold setOption. rewrite Hu, Hctx, Hcv, <- Hr.
  erewrite initEvent_unfold; [|reflexivity|].
  - cbn [Throttle.set_user Throttle.set_closures Throttle.now
           Throttle.nextId Throttle.timers
           Throttle.closures Throttle.dispatched Throttle.user].
    by rewrite render_eventList.
  - by rewrite render_canvas.
Qed.

Lemma setOption_uninitialized o (st : State) :
  ¬ initialized (chart_of st) → setOption o st = st.
Proof.
  intros Hno. unfold setOption, chart_of, initialized in *.
  destruct (Throttle.user st) as [s pg]. cbn in Hno.
  destruct (ctx s) as [log|], (canvas s) as [cv|]; try done.
  destruct Hno. by eexists _, _.
Qed.
End SetOption.

Section Scale.
Import sleepWave.

Lemma render_unfold o s log cv :
  ctx s = Some log → canvas s = Some cv →
  render o s
  = draw (updateProperties (assign o (set_ctx
      (log ++ [clearRect (num 0) (num 0) (width cv) (height cv)]) s))).
Proof. intros Hctx Hcv. unfold render. by rewrite Hctx, Hcv. Qed.

Lemma add_listeners_frame ls s :
  ctx (add_listeners ls s) = ctx s
  ∧ eventList (add_listeners ls s) = eventList s
  ∧ children (add_listeners ls s) = children s
  ∧ sleepType (add_listeners ls s) = sleepType s
  ∧ sleepColor (add_listeners ls s) = sleepColor s
  ∧ sleepData (add_listeners ls s) = sleepData s
  ∧ axisYwidth (add_listeners ls s) = axisYwidth s
  ∧ axisXheight (add_listeners ls s) = axisXheight s
  ∧ Xmax (add_listeners ls s) = Xmax s ∧ Xmin (add_listeners ls s) = Xmin s
  ∧ Xdis (add_listeners ls s) = Xdis s ∧ Ydis (add_listeners ls s) = Ydis s
  ∧ borderRadius (add_listeners ls s) = borderRadius s
  ∧ lineWidth (add_listeners ls s) = lineWidth s.
Proof. unfold add_listeners. by destruct (canvas s). Qed.

(** The scales and the corner radius after [setOption]. *)
Lemma render_scale o s log cv :
  ctx s = Some log → canvas s = Some cv →
  Xdis (render o s)
    = (width cv - default (axisYwidth s) (Options.axisYwidth o))
      / (default (Xmax s) (Options.Xmax o)
         - default (Xmin s) (Options.Xmin o))
  ∧ Ydis (render o s)
    = (height cv - default (axisXheight s) (Options.axisXheight o)) / num 4
  ∧ borderRadius (render o s)
    = Math_min (Ydis (render o s) / num 4)
        (default (borderRadius s) (Options.borderRadius o)).
Proof.
  intros Hctx Hcv. rewrite (render_unfold o s log cv Hctx Hcv).
  destruct (draw_frame (updateProperties (assign o (set_ctx
    (log ++ [clearRect (num 0) (num 0) (width cv) (height cv)]) s))))
    as (_ & _ & _ & _ & _ & _ & _ & _ & _ & _ & -> & -> & -> & _).
  unfold updateProperties. cbn [assign set_ctx canvas]. rewrite Hcv. done.
Qed.

Lemma block_of_ext x y cv cv' pre item :
  width cv = width cv' → same_style x y →
  block_of x cv pre item = block_of y cv' pre item.
Proof.
  intros Hw (Hy & Hx & Hyd & Hb & Hc & Ht & Hl). unfold block_of.
  by rewrite Hw, Hy, Hx, Hyd, Hb, Hc, Ht, Hl.
Qed.

Lemma blocks_from_ext x y cv cv' pre rows :
  width cv = width cv' → same_style x y →
  blocks_from x cv pre rows = blocks_from y cv' pre rows.
Proof.
  intros Hw Hs. revert pre.
  induction rows as [|item rows IH]; intros pre; [done|].
  cbn [blocks_from]. rewrite (block_of_ext x y cv cv' pre item Hw Hs).
  f_equal. apply IH.
Qed.

Lemma render_children o s log cv :
  ctx s = Some log → canvas s = Some cv →
  children (render o s)
  = blocks_from (render o s) cv None (sleepData (render o s)).
Proof.
  intros Hctx Hcv. rewrite (render_unfold o s log cv Hctx Hcv).
  set (u := updateProperties _).
  assert (Hu : canvas u = Some cv ∧ ∃ log', ctx u = Some log').
  { subst u. unfold updateProperties. cbn [assign set_ctx canvas].
    rewrite Hcv. split; [done|]. by eexists. }
  destruct Hu as (Hucv & log' & Huctx).
  rewrite (draw_children u log' cv Huctx Hucv).
  destruct (draw_frame u)
    as (_ & _ & Ht & Hc & Hd & _ & Hy & _ & _ & _ & Hx & Hyd & Hb & Hl).
  rewrite Hd. apply blocks_from_ext; [done|]. by repeat split.
Qed.

End Scale.



(** C2, at the failing input.  With three type labels on a canvas 300
    high (and the default [axisXheight] of 20), [setOption] leaves [Ydis]
    at 280/4 = 70, not at 280/3. *)
Theorem setOption_Ydis_three_types :
  let s := chart_of (sleepWave.setOption three_types (mounted 800 300)) in
  length (sleepWave.sleepType s) = 3%nat
  ∧ length (sleepWave.sleepColor s) = 3%nat
  ∧ sleepWave.Ydis s = num 70
  ∧ sleepWave.Ydis s ≠ (num 300 - num 20) / num 3.
Proof. cbv zeta. repeat split; compute_done. Qed.

Section Idempotence.
Import sleepWave.

Lemma default_default {A : Type} (a : A) (o : option A) :
  default (default a o) o = default a o.
Proof. by destruct o. Qed.

(** The configuration after [setOption]: the fields of the option object
    where it has them, the former values elsewhere. *)
Lemma render_config o s log cv :
  ctx s = Some log → canvas s = Some cv →
  sleepType (render o s) = default (sleepType s) (Options.sleepType o)
  ∧ sleepColor (render o s) = default (sleepColor s) (Options.sleepColor o)
  ∧ sleepData (render o s) = default (sleepData s) (Options.sleepData o)
  ∧ axisYwidth (render o s) = default (axisYwidth s) (Options.axisYwidth o)
  ∧ axisXheight (render o s)
    = default (axisXheight s) (Options.axisXheight o)
  ∧ Xmax (render o s) = default (Xmax s) (Options.Xmax o)
  ∧ Xmin (render o s) = default (Xmin s) (Options.Xmin o)
  ∧ lineWidth (render o s) = default (lineWidth s) (Options.lineWidth o).
Proof.
  intros Hctx Hcv. rewrite (render_unfold o s log cv Hctx Hcv).
  set (a := assign o _).
  destruct (draw_frame (updateProperties a))
    as (_ & _ & -> & -> & -> & _ & -> & -> & -> & -> & _ & _ & _ & ->).
  destruct (updateProperties_frame a)
    as (_ & _ & _ & _ & -> & -> & -> & -> & -> & -> & -> & ->).
  done.
Qed.

Lemma render_initialized o s log cv :
  ctx s = Some log → canvas s = Some cv →
  canvas (render o s) = Some cv ∧ ∃ log', ctx (render o s) = Some log'.
Proof.
  intros Hctx Hcv. split; [by rewrite render_canvas|].
  rewrite (render_unfold o s log cv Hctx Hcv).
  set (u := updateProperties _).
  assert (Hu : canvas u = Some cv ∧ ∃ log', ctx u = Some log').
  { subst u. unfold updateProperties. cbn [assign set_ctx canvas].
    rewrite Hcv. split; [done|]. by eexists. }
  destruct Hu as (Hucv & log' & Huctx).
  rewrite (draw_ctx u log' cv Huctx Hucv). by eexists.
Qed.

(** Rendering again with the same options, whatever listeners were added
    in between, reads the same configuration and the same scales. *)
Lemma render_again o s log cv ls :
  ctx s = Some log → canvas s = Some cv →
  same_style (render o (add_listeners ls (render o s))) (render o s)
  ∧ sleepData (render o (add_listeners ls (render o s)))
    = sleepData (render o s).
Proof.
  intros Hctx Hcv.
  destruct (render_initialized o s log cv Hctx Hcv) as (Hcv1 & log1 & Hctx1).
  set (s1 := add_listeners ls (render o s)).
  assert (Hcv1' : canvas s1
                  = Some {| width := width cv; height := height cv;
                            listeners := listeners cv ++ ls |})
    by (by apply add_listeners_canvas).
  destruct (add_listeners_frame ls (render o s))
    as (Hc1 & _ & _ & Ht & Hc & Hd & Hay & Hax & Hxa & Hxi & _ & _ & Hb & Hl).
  fold s1 in Hc1, Ht, Hc, Hd, Hay, Hax, Hxa, Hxi, Hb, Hl.
  rewrite Hctx1 in Hc1.
  destruct (render_config o s log cv Hctx Hcv)
    as (Kt & Kc & Kd & Kay & Kax & Kxa & Kxi & Kl).
  destruct (render_config o s1 _ _ Hc1 Hcv1')
    as (Jt & Jc & Jd & Jay & Jax & Jxa & Jxi & Jl).
  destruct (render_scale o s log cv Hctx Hcv) as (Kx & Ky & Kb).
  destruct (render_scale o s1 _ _ Hc1 Hcv1') as (Jx & Jy & Jb).
  cbn [width height] in Jx, Jy.
  rewrite Hay, Kay, Hxa, Kxa, Hxi, Kxi, !default_default, <- Kx in Jx.
  rewrite Hax, Kax, default_default, <- Ky in Jy.
  rewrite Ht, Kt, default_default, <- Kt in Jt.
  rewrite Hc, Kc, default_default, <- Kc in Jc.
  rewrite Hd, Kd, default_default, <- Kd in Jd.
  rewrite Hay, Kay, default_default, <- Kay in Jay.
  rewrite Hl, Kl, default_default, <- Kl in Jl.
  assert (Jb' : borderRadius (render o s1) = borderRadius (render o s)).
  { rewrite Jb, Jy, Hb, Kb.
    destruct (Options.borderRadius o) as [v|]; cbn [default]; [done|].
    apply Math_min_idem. }
  split; [|exact Jd]. by repeat split.
Qed.
End Idempotence.

(** C9.  A second [setOption] with the same option object, on the same
    canvas, builds the same blocks as the first: as many, each with the
    same corners, [hasStraight], [nowRadius], colour, title and value. *)
Theorem setOption_idempotent_children :
  ∀ (o : sleepWave.Options.t) (st : sleepWave.State),
    initialized (chart_of st) →
    sleepWave.children
      (chart_of (sleepWave.setOption o (sleepWave.setOption o st)))
    = sleepWave.children (chart_of (sleepWave.setOption o st)).
Proof.
  intros o st Hinit. unfold chart_of in *.
  destruct (Throttle.user st) as [s pg] eqn:Hu. cbn [fst] in Hinit.
  rewrite (setOption_unfold o st s pg Hu Hinit).
  destruct Hinit as (log & cv & Hctx & Hcv).
  set (ls := new_listeners _ _). set (s1 := add_listeners ls (render o s)).
  destruct (render_initialized o s log cv Hctx Hcv) as (Hcv1 & log1 & Hctx1).
  assert (Hcv1' : sleepWave.canvas s1
                  = Some {| sleepWave.width := sleepWave.width cv;
                            sleepWave.height := sleepWave.height cv;
                            sleepWave.listeners := sleepWave.listeners cv ++ ls |})
    by (by apply add_listeners_canvas).
  destruct (add_listeners_frame ls (render o s)) as (Hc1 & _ & Hch & _).
  fold s1 in Hc1, Hch. rewrite Hctx1 in Hc1.
  erewrite setOption_unfold; [|reflexivity|by eexists _, _].
  cbn [Throttle.user fst].
  match goal with
  | |- sleepWave.children (add_listeners ?l ?x) = _ =>
      destruct (add_listeners_frame l x) as (_ & _ & -> & _)
  end.
  rewrite Hch.
  rewrite (render_children o s1 _ _ Hc1 Hcv1').
  rewrite (render_children o s log cv Hctx Hcv).
  destruct (render_again o s log cv ls Hctx Hcv) as (Hstyle & Hdata).
  fold s1 in Hstyle, Hdata. rewrite Hdata.
  by apply blocks_from_ext.
Qed.

(** The two-row chart of the end-to-end example, rendered twice. *)
Lemma setOption_idempotent_children_witness :
  initialized (chart_of (mounted 800 300))
  ∧ length
      (sleepWave.children
         (chart_of
            (sleepWave.setOption
               (options (Some [(num 120, num 0); (num 80, num 1)])
                  None None None None)
               (mounted 800 300)))) = 2%nat
  ∧ sleepWave.children
      (chart_of
         (sleepWave.setOption
            (options (Some [(num 120, num 0); (num 80, num 1)])
               None None None None)
            (sleepWave.setOption
               (options (Some [(num 120, num 0); (num 80, num 1)])
                  None None None None)
               (mounted 800 300))))
    = sleepWave.children
        (chart_of
           (sleepWave.setOption
              (options (Some [(num 120, num 0); (num 80, num 1)])
                 None None None None)
              (mounted 800 300))).
Proof.
  assert (Hinit : initialized (chart_of (mounted 800 300))).
  { eexists _, _. split; reflexivity. }
  split; [exact Hinit|]. split; [reflexivity|].
  exact (setOption_idempotent_children _ _ Hinit).
Defined.


(** ** sleepWave.ts: connectors *)

Section Connectors.
Import sleepWave.













End Connectors.



(** ** sleepWave.ts: listeners *)

Section Listeners.
Import sleepWave.







End Listeners.



(** ** sleepWave.ts: [throttle] *)

Section ThrottleSteps.
Context {A U : Type}.
Implicit Types (h : Throttle.Host A U) (c : Throttle.Closure A U)
  (tm : Throttle.Timer A).




End ThrottleSteps.

Section ThrottleInvariant.
Context {A U : Type}.
Variable d : Z.
Hypothesis d_nonneg : (0 ≤ d)%Z.
Implicit Types (h : Throttle.Host A U) (c : Throttle.Closure A U)
  (tm : Throttle.Timer A).









End ThrottleInvariant.

Section ThrottleBurst.
Context {A U : Type}.
Variable d : Z.
Implicit Types (h : Throttle.Host A U) (c : Throttle.Closure A U)
  (tm : Throttle.Timer A).



End ThrottleBurst.







(** * Further properties *)

(** ** canvas_event.ts: [remove] *)

Section Remove.
Context {H : Type} `{EqDecision H}.

Lemma registered_on (type type' : string) (h : H) (ev : canvas_event.Event H) :
  registered type (canvas_event.on type' h ev)
  = registered type ev ++ (if decide (type' = type) then [h] else []).
Proof. apply on_lookup. Qed.

Lemma registered_remove_all (type type' : string) (ev : canvas_event.Event H) :
  registered type' (canvas_event.remove type None ev)
  = if decide (type' = type) then [] else registered type' ev.
Proof.
  unfold registered, canvas_event.remove. cbn.
  destruct (decide (type' = type)) as [->|Hne].
  - by rewrite lookup_insert_eq.
  - by rewrite lookup_insert_ne.
Qed.

Lemma registered_remove_one (type type' : string) (h : H)
    (ev : canvas_event.Event H) :
  registered type' (canvas_event.remove type (Some h) ev)
  = if decide (type' = type)
    then canvas_event.remove_first h (registered type ev)
    else registered type' ev.
Proof.
  unfold registered, canvas_event.remove.
  destruct (canvas_event._listener ev !! type) as [l|] eqn:Hl; cbn.
  - destruct (decide (type' = type)) as [->|Hne].
    + by rewrite lookup_insert_eq.
    + by rewrite lookup_insert_ne.
  - destruct (decide (type' = type)) as [->|Hne]; [|done].
    by rewrite Hl.
Qed.

Lemma remove_first_notin (h : H) (l : list H) :
  h ∉ l → canvas_event.remove_first h l = l.
Proof.
  induction l as [|x l IH]; intros Hno; [done|]. cbn.
  apply not_elem_of_cons in Hno as [Hx Hl].
  rewrite decide_False by done. by rewrite IH.
Qed.

Lemma remove_first_split (h : H) (l1 l2 : list H) :
  h ∉ l1 → canvas_event.remove_first h (l1 ++ h :: l2) = l1 ++ l2.
Proof.
  induction l1 as [|x l1 IH]; intros Hno; cbn.
  - by rewrite decide_True.
  - apply not_elem_of_cons in Hno as [Hx Hl].
    rewrite decide_False by done. by rewrite IH.
Qed.

Lemma emit_registered {P W E : Type} (kind : P → option string)
    (run : H → P → W → Outcome E W) (type : string) (event : option P)
    (ev1 ev2 : canvas_event.Event H) (w : W) :
  registered type ev1 = registered type ev2 →
  canvas_event.emit kind run type event ev1 w
  = canvas_event.emit kind run type event ev2 w.
Proof.
  intros Hreg. destruct event as [p|]; [|done].
  destruct (kind p) as [k|] eqn:Hk.
  - rewrite !(emit_call_each kind run) by (by rewrite Hk).
    unfold registered in Hreg. by rewrite Hreg.
  - by rewrite !emit_no_kind.
Qed.
End Remove.

(** X1.  [remove(type)] without a handler silences the name: an [emit] for
    it calls nothing, whatever had been registered, while an [emit] for any
    other name does what it did before. *)
Theorem remove_all_silences :
  ∀ (H P W E : Type) (Heq : EqDecision H) (kind : P → option string)
    (run : H → P → W → Outcome E W) (type : string)
    (ev : canvas_event.Event H) (event : option P) (w : W),
    canvas_event.emit kind run type event (canvas_event.remove type None ev) w
    = Returned w
    ∧ (∀ type', type' ≠ type →
         canvas_event.emit kind run type' event
           (canvas_event.remove type None ev) w
         = canvas_event.emit kind run type' event ev w).
Proof.
  intros H P W E Heq kind run type ev event w. split.
  - destruct event as [p|]; [|done].
    destruct (kind p) as [k|] eqn:Hk; [|by rewrite emit_no_kind].
    rewrite emit_call_each by (by rewrite Hk).
    fold (registered type (canvas_event.remove type None ev)).
    rewrite registered_remove_all, decide_True by done. done.
  - intros type' Hne. apply emit_registered.
    by rewrite registered_remove_all, decide_False.
Qed.

(** Handler 1 listens for [click] and handler 2 for [move]; after
    [remove("click")] a click calls nothing and a move still calls 2. *)
Lemma remove_all_silences_witness :
  let kind := λ p : string, Some p in
  let ev := register [("click", 1%nat); ("move", 2%nat)] in
  canvas_event.emit kind (recording (E := string) (λ _, None)) "click"
    (Some "click") (canvas_event.remove "click" None ev) []
  = Returned []
  ∧ canvas_event.emit kind (recording (E := string) (λ _, None)) "move"
      (Some "move") (canvas_event.remove "click" None ev) []
    = Returned [(2%nat, "move")].
Proof.
  intros kind ev. split.
  - apply (remove_all_silences nat string (list (nat * string)) string _ kind
             (recording (λ _, None)) "click" ev (Some "click") []).
  - destruct (remove_all_silences nat string (list (nat * string)) string _
                kind (recording (λ _, None)) "click" ev (Some "move") [])
      as [_ Hother].
    rewrite (Hother "move") by done. reflexivity.
Defined.

(** X2.  [remove(type, handler)] takes out the earliest registration of the
    handler for that name and nothing else: the handlers before and after
    it keep their order, a second registration of the same handler stays,
    other names are untouched, and a handler that is not registered (or a
    name that has no list) leaves every list as it was. *)
Theorem remove_first_registration :
  ∀ (H : Type) (Heq : EqDecision H) (type : string) (h : H)
    (ev : canvas_event.Event H),
    (∀ type', type' ≠ type →
       registered type' (canvas_event.remove type (Some h) ev)
       = registered type' ev)
    ∧ (h ∉ registered type ev →
       registered type (canvas_event.remove type (Some h) ev)
       = registered type ev)
    ∧ (∀ before after,
         registered type ev = before ++ h :: after → h ∉ before →
         registered type (canvas_event.remove type (Some h) ev)
         = before ++ after).
Proof.
  intros H Heq type h ev. split; [|split].
  - intros type' Hne. by rewrite registered_remove_one, decide_False.
  - intros Hno. rewrite registered_remove_one, decide_True by done.
    by apply remove_first_notin.
  - intros before after Hreg Hno.
    rewrite registered_remove_one, decide_True by done.
    rewrite Hreg. by apply remove_first_split.
Qed.

(** Handler 1 is registered twice around handler 3: removing it leaves 3
    and the second 1. *)
Lemma remove_first_registration_witness :
  registered "click"
    (canvas_event.remove "click" (Some 1%nat)
       (register [("click", 1%nat); ("click", 3%nat); ("click", 1%nat)]))
  = [3%nat; 1%nat].
Proof.
  destruct (remove_first_registration nat _ "click" 1%nat
              (register [("click", 1%nat); ("click", 3%nat); ("click", 1%nat)]))
    as (_ & _ & Hsplit).
  apply (Hsplit [] [3%nat; 1%nat]); [reflexivity|].
  apply not_elem_of_nil.
Defined.

(** X3.  Registering a handler and removing it again: if it was not
    registered for the name before, every [emit] does what it did before
    the two calls; if it was, the earlier registration is the one that
    goes, so the handler is now called last. *)
Theorem on_then_remove :
  ∀ (H : Type) (Heq : EqDecision H) (type : string) (h : H)
    (ev : canvas_event.Event H),
    (h ∉ registered type ev →
     ∀ (P W E : Type) (kind : P → option string)
       (run : H → P → W → Outcome E W) (type' : string) (event : option P)
       (w : W),
       canvas_event.emit kind run type' event
         (canvas_event.remove type (Some h) (canvas_event.on type h ev)) w
       = canvas_event.emit kind run type' event ev w)
    ∧ (∀ before after,
         registered type ev = before ++ h :: after → h ∉ before →
         registered type
           (canvas_event.remove type (Some h) (canvas_event.on type h ev))
         = before ++ after ++ [h]).
Proof.
  intros H Heq type h ev. split.
  - intros Hno P W E kind run type' event w. apply emit_registered.
    rewrite registered_remove_one, !registered_on.
    destruct (decide (type' = type)) as [->|Hne].
    + rewrite decide_True by done.
      replace (registered type ev ++ [h])
        with (registered type ev ++ h :: []) by done.
      by rewrite remove_first_split, app_nil_r.
    + rewrite decide_False by done. by rewrite app_nil_r.
  - intros before after Hreg Hno.
    rewrite registered_remove_one, decide_True, registered_on, decide_True
      by done.
    rewrite Hreg, <- app_assoc. cbn [app].
    by rewrite remove_first_split.
Qed.

(** With 1 and 3 registered for [click]: adding and removing 5 changes
    nothing, adding and removing 1 moves it behind 3. *)
Lemma on_then_remove_witness :
  canvas_event.emit (λ p : string, Some p) (recording (E := string) (λ _, None))
    "click" (Some "click")
    (canvas_event.remove "click" (Some 5%nat)
       (canvas_event.on "click" 5%nat
          (register [("click", 1%nat); ("click", 3%nat)]))) []
  = canvas_event.emit (λ p : string, Some p)
      (recording (E := string) (λ _, None))
      "click" (Some "click") (register [("click", 1%nat); ("click", 3%nat)]) []
  ∧ registered "click"
      (canvas_event.remove "click" (Some 1%nat)
         (canvas_event.on "click" 1%nat
            (register [("click", 1%nat); ("click", 3%nat)])))
    = [3%nat; 1%nat].
Proof.
  split.
  - destruct (on_then_remove nat _ "click" 5%nat
                (register [("click", 1%nat); ("click", 3%nat)])) as [Hfresh _].
    apply Hfresh. vm_compute. intros Hin.
    repeat (apply elem_of_cons in Hin as [Hin|Hin]; [discriminate Hin|]).
    by apply elem_of_nil in Hin.
  - destruct (on_then_remove nat _ "click" 1%nat
                (register [("click", 1%nat); ("click", 3%nat)])) as [_ Hold].
    apply (Hold [] [3%nat]); [reflexivity|]. apply not_elem_of_nil.
Defined.

(** ** sleep_block.ts and sleepWave.ts: pointer events *)

Section Hover.

Lemma inside_iff p b : inside p b = true ↔ in_open_box b p.
Proof.
  unfold inside, in_open_box. cbn zeta.
  rewrite !andb_true_iff, !ltb_lt. tauto.
Qed.

Lemma inside_set_point p q b : inside p (sleep_block.set_point q b) = inside p b.
Proof. done. Qed.

Lemma isEventInRegion_unfold clientX clientY b pg :
  sleep_block.isEventInRegion clientX clientY b pg
  = let p := sleep_block.getEventPosition clientX clientY pg in
    (inside p b, sleep_block.set_point p b,
     if inside p b then pg else pointer_left pg).
Proof.
  unfold sleep_block.isEventInRegion, inside. cbn.
  by destruct (_ && _ && _ && _).
Qed.

Lemma pointer_left_idem pg : pointer_left (pointer_left pg) = pointer_left pg.
Proof. done. Qed.

Lemma filter_hits_spec event shapes pg :
  let p := sleep_block.getEventPosition (MouseEvent.clientX event)
             (MouseEvent.clientY event) pg in
  sleepWave.filter_hits event shapes pg
  = (map (sleep_block.set_point p) shapes,
     List.filter (inside p) (map (sleep_block.set_point p) shapes),
     if forallb (inside p) shapes then pg else pointer_left pg).
Proof.
  cbn zeta. revert pg. induction shapes as [|shape rest IH]; intros pg; [done|].
  cbn [sleepWave.filter_hits]. rewrite isEventInRegion_unfold. cbn zeta.
  destruct (inside _ shape) eqn:Hin.
  - rewrite IH. cbn [map List.filter forallb]. rewrite inside_set_point, Hin.
    done.
  - rewrite IH. cbn [map List.filter forallb]. rewrite inside_set_point, Hin.
    change (sleep_block.getEventPosition (MouseEvent.clientX event)
              (MouseEvent.clientY event) (pointer_left pg))
      with (sleep_block.getEventPosition (MouseEvent.clientX event)
              (MouseEvent.clientY event) pg).
    cbn [andb]. destruct (forallb _ rest); [done|].
    by rewrite pointer_left_idem.
Qed.

Lemma constructed_register b :
  constructed b →
  sleep_block.super b
  = register [("click", sleep_block.handleClick);
              ("mousemove", sleep_block.handleMouseMove)].
Proof. done. Qed.

(** What [emit] does on a block that came out of the constructor. *)
Lemma block_emit type event b pg :
  constructed b →
  sleep_block.emit type event b pg
  = Returned
      (if decide (type = "click") then sleep_block.commonHandler pg
       else if decide (type = "mousemove")
            then sleep_block.setTimeout (sleep_block.placeTooltip b)
                   (sleep_block.commonHandler pg)
            else pg).
Proof.
  intros Hb. unfold sleep_block.emit. rewrite emit_call_each by done.
  rewrite (constructed_register b Hb), register_lookup.
  unfold handlers_for. rewrite !filter_cons, filter_nil. cbn [fst].
  destruct (decide (type = "click")) as [->|Hc].
  - rewrite decide_True by done. rewrite decide_False by done. done.
  - rewrite (decide_False (P := "click" = type)) by done.
    destruct (decide (type = "mousemove")) as [->|Hm].
    + by rewrite decide_True.
    + by rewrite decide_False.
Qed.

Lemma constructed_set_point p b :
  constructed b → constructed (sleep_block.set_point p b).
Proof. done. Qed.

(** The [forEach] of [handleEvent] over the blocks that were hit. *)
Lemma emits_spec type event hits :
  ∀ pg,
    Forall constructed hits →
    type = "click" ∨ type = "mousemove" →
    let pg' :=
      fold_left
        (λ pg shape,
           outcome_state (sleep_block.emit type event shape pg)) hits pg in
    sleep_block.jobs pg'
    = sleep_block.jobs pg
      ++ (if decide (type = "mousemove")
          then map sleep_block.placeTooltip hits else [])
    ∧ sleep_block.bbox_left pg' = sleep_block.bbox_left pg
    ∧ sleep_block.bbox_top pg' = sleep_block.bbox_top pg
    ∧ (hits = [] → pg' = pg)
    ∧ (hits ≠ [] →
       sleep_block.cursor pg' = "pointer"
       ∧ Tooltip.visible (sleep_block.tooltip pg') = true
       ∧ Tooltip.style_display (sleep_block.tooltip pg') = "block").
Proof.
  induction hits as [|b hits IH] using rev_ind; intros pg Hall Htype.
  - cbn [fold_left map]. split; [|split; [|split; [|split]]]; try done.
    destruct (decide _); by rewrite app_nil_r.
  - apply Forall_app in Hall as [Hall Hb].
    apply (proj1 (Forall_singleton _ _)) in Hb.
    cbn zeta. rewrite fold_left_app. cbn [fold_left].
    destruct (IH pg Hall Htype) as (Hj & Hl & Ht & _ & _).
    rewrite (block_emit type event b) by done. cbn [outcome_state].
    set (pg1 := fold_left _ hits pg) in *.
    split; [|split; [|split; [|split]]].
    + destruct Htype as [-> | ->].
      * rewrite !decide_True by done.
        rewrite (decide_False (P := "click" = "mousemove")) in * by done.
        cbn. by rewrite Hj.
      * rewrite (decide_False (P := "mousemove" = "click")) by done.
        rewrite !decide_True in * by done.
        cbn. by rewrite Hj, map_app, app_assoc.
    + destruct (decide (type = "click"));
        [|destruct (decide (type = "mousemove"))]; cbn; exact Hl.
    + destruct (decide (type = "click"));
        [|destruct (decide (type = "mousemove"))]; cbn; exact Ht.
    + intros Habs. by apply app_eq_nil in Habs as [_ ?].
    + intros _. destruct Htype as [-> | ->].
      * by rewrite decide_True.
      * rewrite decide_False by done. by rewrite decide_True.
Qed.

Lemma filter_inside_nil p shapes :
  (∀ b, b ∈ shapes → ¬ in_open_box b p) →
  List.filter (inside p) (map (sleep_block.set_point p) shapes) = []
  ∧ (shapes ≠ [] → forallb (inside p) shapes = false).
Proof.
  induction shapes as [|b rest IH]; intros Hno; [done|].
  assert (Hb : inside p b = false).
  { apply not_true_iff_false. rewrite inside_iff. apply Hno. by left. }
  cbn [map List.filter forallb]. rewrite inside_set_point, Hb.
  split; [|done]. apply IH. intros b' Hb'. apply Hno. by right.
Qed.

Lemma filter_inside_some p shapes b :
  b ∈ shapes → in_open_box b p →
  List.filter (inside p) (map (sleep_block.set_point p) shapes) ≠ [].
Proof.
  intros Hin Hbox Hnil.
  assert (Hf : List.In (sleep_block.set_point p b)
                 (List.filter (inside p)
                    (map (sleep_block.set_point p) shapes))).
  { apply List.filter_In. split.
    - apply List.in_map. by apply list_elem_of_In.
    - rewrite inside_set_point. by apply inside_iff. }
  by rewrite Hnil in Hf.
Qed.
End Hover.

(** X4.  [handleEvent] leaves the layout alone: the chart is as before
    except that every block now holds the pointer position relative to the
    canvas in [point]; no block is added, dropped or moved, and blocks that
    came out of the constructor still have their two handlers. *)
Theorem handleEvent_frame :
  ∀ (event : MouseEvent.t) (s : sleepWave.SleepWave) (pg : sleep_block.Page),
    let p := {| Point.x := MouseEvent.clientX event - sleep_block.bbox_left pg;
                Point.y := MouseEvent.clientY event - sleep_block.bbox_top pg |}
    in
    let s' := (sleepWave.handleEvent event (s, pg)).1 in
    s' = sleepWave.set_children
           (map (sleep_block.set_point p) (sleepWave.children s)) s
    ∧ length (sleepWave.children s') = length (sleepWave.children s)
    ∧ (∀ b, b ∈ sleepWave.children s' → sleep_block.point b = p)
    ∧ (∀ i b b', sleepWave.children s !! i = Some b →
                 sleepWave.children s' !! i = Some b' →
                 sleep_block.startX b' = sleep_block.startX b
                 ∧ sleep_block.endX b' = sleep_block.endX b
                 ∧ sleep_block.startY b' = sleep_block.startY b
                 ∧ sleep_block.endY b' = sleep_block.endY b
                 ∧ sleep_block.super b' = sleep_block.super b)
    ∧ (Forall constructed (sleepWave.children s) →
       Forall constructed (sleepWave.children s')).
Proof.
  intros event s pg p s'.
  assert (Hs' : s' = sleepWave.set_children
                       (map (sleep_block.set_point p) (sleepWave.children s)) s).
  { subst s'. unfold sleepWave.handleEvent.
    pose proof (filter_hits_spec event (sleepWave.children s) pg) as Hf.
    cbn zeta in Hf. rewrite Hf. done. }
  split; [exact Hs'|]. rewrite Hs'. cbn [sleepWave.set_children sleepWave.children].
  split; [by rewrite length_map|]. split; [|split].
  - intros b Hb. apply list_elem_of_fmap in Hb as (b0 & -> & _). done.
  - intros i b b' Hb Hb'. rewrite list_lookup_fmap, Hb in Hb'.
    injection Hb' as <-. done.
  - intros Hall. apply list.Forall_forall. intros b Hb.
    apply list_elem_of_fmap in Hb as (b0 & -> & Hb0).
    apply constructed_set_point.
    by apply (proj1 (list.Forall_forall _ _) Hall).
Qed.

(** A mouse move over the drawn two-row chart: both blocks keep their
    handlers. *)
Lemma handleEvent_frame_witness :
  Forall constructed (sleepWave.children (sleepWave.draw sample_chart))
  ∧ Forall constructed
      (sleepWave.children
         (sleepWave.handleEvent
            {| MouseEvent.type := "mousemove"; MouseEvent.clientX := num 100;
               MouseEvent.clientY := num 30 |}
            (sleepWave.draw sample_chart, page_at 0 0)).1).
Proof.
  assert (Hall : Forall constructed
                   (sleepWave.children (sleepWave.draw sample_chart))).
  { repeat constructor. }
  split; [exact Hall|].
  pose proof (handleEvent_frame
                {| MouseEvent.type := "mousemove"; MouseEvent.clientX := num 100;
                   MouseEvent.clientY := num 30 |}
                (sleepWave.draw sample_chart) (page_at 0 0)) as Hframe.
  cbv zeta in Hframe. destruct Hframe as (_ & _ & _ & _ & Hkeep).
  exact (Hkeep Hall).
Defined.

(** X5.  What a click or a mouse move does to the cursor and the tooltip,
    on blocks that came out of the constructor: if the pointer is inside
    some block the cursor is [pointer] and the tooltip is shown, whatever
    the other blocks answered; if there are blocks and it is inside none
    the cursor is [default], the tooltip is hidden and nothing is queued;
    with no blocks at all the page is as it was. *)
Theorem handleEvent_hover :
  ∀ (event : MouseEvent.t) (s : sleepWave.SleepWave) (pg : sleep_block.Page),
    Forall constructed (sleepWave.children s) →
    MouseEvent.type event = "click" ∨ MouseEvent.type event = "mousemove" →
    let p := sleep_block.getEventPosition (MouseEvent.clientX event)
               (MouseEvent.clientY event) pg in
    let pg' := (sleepWave.handleEvent event (s, pg)).2 in
    ((∃ b, b ∈ sleepWave.children s ∧ in_open_box b p) →
     sleep_block.cursor pg' = "pointer"
     ∧ Tooltip.visible (sleep_block.tooltip pg') = true
     ∧ Tooltip.style_display (sleep_block.tooltip pg') = "block")
    ∧ (sleepWave.children s ≠ [] →
       (∀ b, b ∈ sleepWave.children s → ¬ in_open_box b p) →
       pg' = pointer_left pg)
    ∧ (sleepWave.children s = [] → pg' = pg).
Proof.
  intros event s pg Hall Htype p pg'.
  assert (Hpg' : pg'
                 = fold_left
                     (λ pg shape,
                        outcome_state
                          (sleep_block.emit (MouseEvent.type event) event
                             shape pg))
                     (List.filter (inside p)
                        (map (sleep_block.set_point p) (sleepWave.children s)))
                     (if forallb (inside p) (sleepWave.children s)
                      then pg else pointer_left pg)).
  { subst pg'. unfold sleepWave.handleEvent.
    pose proof (filter_hits_spec event (sleepWave.children s) pg) as Hf.
    cbn zeta in Hf. rewrite Hf. done. }
  assert (Hhits : Forall constructed
                    (List.filter (inside p)
                       (map (sleep_block.set_point p) (sleepWave.children s)))).
  { apply list.Forall_forall. intros b Hb. apply list_elem_of_In in Hb.
    apply List.filter_In in Hb as [Hb _]. apply list_elem_of_In in Hb.
    apply list_elem_of_fmap in Hb as (b0 & -> & Hb0).
    apply constructed_set_point.
    by apply (proj1 (list.Forall_forall _ _) Hall). }
  split; [|split].
  - intros (b & Hb & Hbox). rewrite Hpg'.
    destruct (emits_spec (MouseEvent.type event) event _
                (if forallb (inside p) (sleepWave.children s)
                 then pg else pointer_left pg) Hhits Htype)
      as (_ & _ & _ & _ & Hsome).
    apply Hsome. by eapply filter_inside_some.
  - intros Hne Hno. rewrite Hpg'.
    destruct (filter_inside_nil p (sleepWave.children s) Hno) as [-> Hfalse].
    by rewrite Hfalse.
  - intros Hnil. rewrite Hpg', Hnil. done.
Qed.

(** X6.  A mouse move queues one tooltip placement for each block the
    pointer is inside, in block order, after the jobs already queued; a
    click queues none. *)
Theorem handleEvent_jobs :
  ∀ (event : MouseEvent.t) (s : sleepWave.SleepWave) (pg : sleep_block.Page),
    Forall constructed (sleepWave.children s) →
    MouseEvent.type event = "click" ∨ MouseEvent.type event = "mousemove" →
    let p := sleep_block.getEventPosition (MouseEvent.clientX event)
               (MouseEvent.clientY event) pg in
    let hits := List.filter (inside p)
                  (map (sleep_block.set_point p) (sleepWave.children s)) in
    sleep_block.jobs (sleepWave.handleEvent event (s, pg)).2
    = sleep_block.jobs pg
      ++ (if decide (MouseEvent.type event = "mousemove")
          then map sleep_block.placeTooltip hits else []).
Proof.
  intros event s pg Hall Htype p hits.
  unfold sleepWave.handleEvent.
  pose proof (filter_hits_spec event (sleepWave.children s) pg) as Hf.
  cbn zeta in Hf. rewrite Hf. cbn [snd].
  assert (Hhits : Forall constructed hits).
  { apply list.Forall_forall. intros b Hb. apply list_elem_of_In in Hb.
    apply List.filter_In in Hb as [Hb _]. apply list_elem_of_In in Hb.
    apply list_elem_of_fmap in Hb as (b0 & -> & Hb0).
    apply constructed_set_point.
    by apply (proj1 (list.Forall_forall _ _) Hall). }
  destruct (emits_spec (MouseEvent.type event) event hits
              (if forallb (inside p) (sleepWave.children s)
               then pg else pointer_left pg) Hhits Htype) as (Hj & _).
  fold p. fold hits. rewrite Hj. f_equal. by destruct (forallb _ _).
Qed.

Lemma blocks_from_constructed s cv pre rows :
  Forall constructed (blocks_from s cv pre rows).
Proof.
  revert pre. induction rows as [|item rows IH]; intros pre; cbn [blocks_from].
  - constructor.
  - constructor; [done | apply IH].
Qed.

Lemma draw_constructed s :
  initialized s → Forall constructed (sleepWave.children (sleepWave.draw s)).
Proof.
  intros (log & cv & Hctx & Hcv). rewrite (draw_children s log cv Hctx Hcv).
  apply blocks_from_constructed.
Qed.

(** A mouse move at (100, 30) over the drawn two-row chart is inside the
    first block only. *)
Lemma handleEvent_hover_witness :
  Forall constructed (sleepWave.children (sleepWave.draw sample_chart))
  ∧ sleep_block.cursor
      (sleepWave.handleEvent
         {| MouseEvent.type := "mousemove"; MouseEvent.clientX := num 100;
            MouseEvent.clientY := num 30 |}
         (sleepWave.draw sample_chart, page_at 0 0)).2 = "pointer"
  ∧ Tooltip.visible
      (sleep_block.tooltip
         (sleepWave.handleEvent
            {| MouseEvent.type := "mousemove"; MouseEvent.clientX := num 100;
               MouseEvent.clientY := num 30 |}
            (sleepWave.draw sample_chart, page_at 0 0)).2) = true.
Proof.
  assert (Hinit : initialized sample_chart).
  { eexists _, _. split; reflexivity. }
  pose proof (draw_constructed sample_chart Hinit) as Hall.
  split; [exact Hall|].
  destruct (handleEvent_hover
              {| MouseEvent.type := "mousemove"; MouseEvent.clientX := num 100;
                 MouseEvent.clientY := num 30 |}
              (sleepWave.draw sample_chart) (page_at 0 0) Hall)
    as (Hhit & _); [by right|].
  destruct Hhit as (Hc & Hv & _); [|by split].
  eexists. split.
  - apply (list_elem_of_lookup_2 _ 0%nat). reflexivity.
  - unfold in_open_box. cbn zeta. repeat split; compute_done.
Defined.

(** The same mouse move queues one job, for the first block. *)
Lemma handleEvent_jobs_witness :
  Forall constructed (sleepWave.children (sleepWave.draw sample_chart))
  ∧ length
      (sleep_block.jobs
         (sleepWave.handleEvent
            {| MouseEvent.type := "mousemove"; MouseEvent.clientX := num 100;
               MouseEvent.clientY := num 30 |}
            (sleepWave.draw sample_chart, page_at 0 0)).2) = 1%nat.
Proof.
  assert (Hinit : initialized sample_chart).
  { eexists _, _. split; reflexivity. }
  pose proof (draw_constructed sample_chart Hinit) as Hall.
  split; [exact Hall|].
  rewrite (handleEvent_jobs
             {| MouseEvent.type := "mousemove"; MouseEvent.clientX := num 100;
                MouseEvent.clientY := num 30 |}
             (sleepWave.draw sample_chart) (page_at 0 0) Hall); [|by right].
  vm_compute. reflexivity.
Defined.

(** ** sleep_block.ts: the tooltip *)



(** X8.  The tooltip element is displayed exactly when [visible] is set:
    this holds when [init] has created the tooltip, and a hit test, the
    handling of a pointer event and a tooltip placement all keep it. *)
Theorem tooltip_display_mirrors_visible :
  (∀ clientWidth clientHeight measured c,
      display_mirrors
        (sleep_block.tooltip
           (sleepWave.init clientWidth clientHeight measured c).2))
  ∧ (∀ clientX clientY b pg,
       display_mirrors (sleep_block.tooltip pg) →
       display_mirrors
         (sleep_block.tooltip
            (sleep_block.isEventInRegion clientX clientY b pg).2))
  ∧ (∀ event c,
       display_mirrors (sleep_block.tooltip c.2) →
       display_mirrors
         (sleep_block.tooltip (sleepWave.handleEvent event c).2))
  ∧ (∀ job pg,
       display_mirrors (sleep_block.tooltip pg) →
       display_mirrors (sleep_block.tooltip (sleep_block.run_job job pg))).
Proof.
  split; [|split; [|split]].
  - by intros ? ? ? [s pg].
  - intros clientX clientY b pg Hm. rewrite isEventInRegion_unfold. cbn.
    by destruct (inside _ b).
  - intros event [s pg] Hm. unfold sleepWave.handleEvent.
    pose proof (filter_hits_spec event (sleepWave.children s) pg) as Hf.
    cbn zeta in Hf. rewrite Hf. cbn [snd].
    set (hits := List.filter _ _). clearbody hits.
    assert (Hstart : display_mirrors
                       (sleep_block.tooltip
                          (if forallb
                                (inside
                                   (sleep_block.getEventPosition
                                      (MouseEvent.clientX event)
                                      (MouseEvent.clientY event) pg))
                                (sleepWave.children s)
                           then pg else pointer_left pg)))
      by (by destruct (forallb _ _)).
    revert Hstart. generalize (if forallb
                                (inside
                                   (sleep_block.getEventPosition
                                      (MouseEvent.clientX event)
                                      (MouseEvent.clientY event) pg))
                                (sleepWave.children s)
                           then pg else pointer_left pg).
    induction hits as [|shape hits IH]; intros pg0 Hpg0; [done|].
    cbn [fold_left]. apply IH.
    unfold sleep_block.emit, canvas_event.emit. cbn [MouseEvent.type].
    destruct (canvas_event._listener (sleep_block.super shape)
                !! MouseEvent.type event) as [hs|]; [|done].
    clear IH. revert pg0 Hpg0.
    induction hs as [|h hs IHhs]; intros pg0 Hpg0; [done|].
    cbn [canvas_event.call_each]. destruct h; cbn; by apply IHhs.
  - intros [self] pg Hm. unfold display_mirrors in *. cbn. exact Hm.
Qed.

(** The page after a mouse move over the drawn two-row chart, and after the
    job it queued. *)
Lemma tooltip_display_mirrors_visible_witness :
  display_mirrors (sleep_block.tooltip (page_at 0 0))
  ∧ display_mirrors
      (sleep_block.tooltip
         (sleepWave.handleEvent
            {| MouseEvent.type := "mousemove"; MouseEvent.clientX := num 100;
               MouseEvent.clientY := num 30 |}
            (sleepWave.draw sample_chart, page_at 0 0)).2).
Proof.
  assert (H0 : display_mirrors (sleep_block.tooltip (page_at 0 0)))
    by reflexivity.
  split; [exact H0|].
  destruct tooltip_display_mirrors_visible as (_ & _ & Hh & _).
  apply (Hh _ (sleepWave.draw sample_chart, page_at 0 0)). exact H0.
Defined.

(** ** Geometry of the blocks and the connectors *)

(** Linear arithmetic on numbers, through the rationals they stand for. *)
Ltac qc_lra :=
  try apply Qc_is_canon;
  unfold Qcle, Qclt, Qcminus, Qcdiv, num, Qc_of_Z in *;
  cbn [this Qcplus Qcmult Qcopp Qcinv Q2Qc] in *;
  rewrite ?Qred_correct in *;
  unfold inject_Z in *;
  cbn [Qinv Qnum Qden] in *;
  lra.

(** X9.  The outline of a block is one closed path: it starts with a
    [moveTo] at the top of the left edge and the last curve brings the pen
    back to that point; [closePath] is not used, and the outline is stroked
    before it is filled.  It has four corner curves, and four straight
    pieces with [hasStraight], two without. *)
Theorem block_path_closed :
  ∀ b : sleep_block.SleepWaveBlock,
    let cmds := sleep_block.draw b in
    let corner := (sleep_block.startX b,
                   sleep_block.startY b + sleep_block.borderRadius b) in
    path_start cmds = Some corner
    ∧ pen_after cmds = Some corner
    ∧ (closePath ∉ cmds)
    ∧ length (List.filter
                (λ c, match c with quadraticCurveTo _ _ _ _ => true
                              | _ => false end) cmds) = 4%nat
    ∧ length (List.filter
                (λ c, match c with lineTo _ _ => true | _ => false end) cmds)
      = (if sleep_block.hasStraight b then 4 else 2)%nat
    ∧ list.last cmds = Some fill
    ∧ (∃ before after, cmds = before ++ stroke :: after
                       ∧ fill ∈ after ∧ (fill ∉ before)).
Proof.
  intros b cmds corner. subst cmds corner. unfold sleep_block.draw.
  destruct (sleep_block.hasStraight b); cbn.
  all: repeat split; try done.
  all: try (intros Hin; repeat (apply elem_of_cons in Hin as [Hin|Hin];
                                [discriminate Hin|]);
            by apply elem_of_nil in Hin).
  - eexists (_ :: _ :: _ :: _ :: _ :: _ :: _ :: _ :: _ :: _ :: _ :: [_]), _.
    split; [reflexivity|]. split; [by right; left|].
    intros Hin. repeat (apply elem_of_cons in Hin as [Hin|Hin];
                        [discriminate Hin|]).
    by apply elem_of_nil in Hin.
  - eexists (_ :: _ :: _ :: _ :: _ :: _ :: _ :: _ :: _ :: [_]), _.
    split; [reflexivity|]. split; [by right; left|].
    intros Hin. repeat (apply elem_of_cons in Hin as [Hin|Hin];
                        [discriminate Hin|]).
    by apply elem_of_nil in Hin.
Qed.

Section BlockGeometry.
Import sleepWave.


(** The chart after [setOption], as far as the layout goes. *)
Lemma setOption_layout o (st : State) s pg log cv :
  Throttle.user st = (s, pg) → ctx s = Some log → canvas s = Some cv →
  let s' := chart_of (setOption o st) in
  children s' = blocks_from s' cv None (sleepData s')
  ∧ borderRadius s' ≤ Ydis s' / num 4
  ∧ borderRadius s'
    = Math_min (Ydis s' / num 4)
        (default (borderRadius s) (Options.borderRadius o))
  ∧ Ydis s' = (height cv - default (axisXheight s) (Options.axisXheight o))
              / num 4
  ∧ sleepData s' = default (sleepData s) (Options.sleepData o)
  ∧ Xdis s'
    = (width cv - default (axisYwidth s) (Options.axisYwidth o))
      / (default (Xmax s) (Options.Xmax o) - default (Xmin s) (Options.Xmin o))
  ∧ axisYwidth s' = default (axisYwidth s) (Options.axisYwidth o).
Proof.
  intros Hu Hctx Hcv s'.
  assert (Hinit : initialized s) by (by eexists _, _).
  assert (Hs' : s' = add_listeners
                       (new_listeners (length (Throttle.closures st))
                          (eventList s)) (render o s)).
  { subst s'. unfold chart_of. by rewrite (setOption_unfold o st s pg Hu Hinit). }
  destruct (add_listeners_frame
              (new_listeners (length (Throttle.closures st)) (eventList s))
              (render o s))
    as (_ & _ & Hch & Ht & Hc & Hd & Hay & _ & _ & _ & Hx & Hy & Hb & Hl).
  rewrite <- Hs' in Hch, Ht, Hc, Hd, Hay, Hx, Hy, Hb, Hl.
  destruct (render_scale o s log cv Hctx Hcv) as (Kx & Ky & Kb).
  destruct (render_config o s log cv Hctx Hcv)
    as (_ & _ & Kd & Kay & _).
  rewrite <- Hy, <- Hb in Kb. rewrite <- Hy in Ky. rewrite <- Hx in Kx.
  rewrite <- Hd in Kd. rewrite <- Hay in Kay.
  split.
  { rewrite Hch, (render_children o s log cv Hctx Hcv), Hd.
    apply blocks_from_ext; [done|]. by repeat split. }
  split; [rewrite Kb; apply Math_min_le_l|]. done.
Qed.
End BlockGeometry.





Section ConnectorAnchors.
Import sleepWave.




End ConnectorAnchors.



(** ** sleepWave.ts: blocks do not overlap *)

Section Disjoint.
Import sleepWave.
Variable s : SleepWave.
Variable cv : Canvas.
Hypothesis Xdis_nonneg : 0 ≤ Xdis s.

Lemma block_of_grows pre item :
  0 ≤ item.1 →
  sleep_block.startX (block_of s cv pre item)
  ≤ sleep_block.endX (block_of s cv pre item).
Proof.
  intros Hd. rewrite block_of_startX, block_of_endX.
  pose proof (Qcmult_nonneg_nonneg _ _ Hd Xdis_nonneg) as Hw.
  generalize dependent (item.1 * Xdis s). intros w Hw.
  generalize (start_of s pre). intros x. qc_lra.
Qed.

Lemma blocks_from_start_le pre rows j b :
  (∀ item, item ∈ rows → 0 ≤ item.1) →
  blocks_from s cv pre rows !! j = Some b →
  start_of s pre ≤ sleep_block.startX b.
Proof.
  revert pre j. induction rows as [|item rows IH]; intros pre j Hpos; [done|].
  destruct j as [|j]; cbn [blocks_from lookup list_lookup]; cbv zeta.
  - intros [= <-]. rewrite block_of_startX. apply Qcle_refl.
  - intros Hb. eapply Qcle_trans; [|eapply IH; [|exact Hb]].
    + cbn [start_of]. rewrite <- (block_of_startX s cv pre item).
      apply block_of_grows. apply Hpos. by left.
    + intros item' Hin. apply Hpos. by right.
Qed.

Lemma blocks_from_ordered pre rows i j bi bj :
  (∀ item, item ∈ rows → 0 ≤ item.1) →
  (i < j)%nat →
  blocks_from s cv pre rows !! i = Some bi →
  blocks_from s cv pre rows !! j = Some bj →
  sleep_block.endX bi ≤ sleep_block.startX bj.
Proof.
  revert pre i j. induction rows as [|item rows IH]; intros pre i j Hpos Hij;
    [done|].
  destruct j as [|j]; [lia|].
  destruct i as [|i]; cbn [blocks_from lookup list_lookup]; cbv zeta.
  - intros Hbi Hbj.
    assert (bi = block_of s cv pre item) as -> by congruence.
    apply (blocks_from_start_le _ rows j bj) in Hbj; [exact Hbj|].
    intros item' Hin. apply Hpos. by right.
  - apply IH; [|lia]. intros item' Hin. apply Hpos. by right.
Qed.

Lemma blocks_from_right_of p pre rows :
  (∀ item, item ∈ rows → 0 ≤ item.1) →
  Point.x p ≤ start_of s pre →
  List.filter (inside p) (blocks_from s cv pre rows) = [].
Proof.
  revert pre. induction rows as [|item rows IH]; intros pre Hpos Hx; [done|].
  cbn [blocks_from List.filter].
  assert (Hout : inside p (block_of s cv pre item) = false).
  { apply not_true_iff_false. rewrite inside_iff. intros (Hl & _).
    rewrite block_of_startX in Hl. by apply Qcle_not_lt in Hx. }
  rewrite Hout. apply IH.
  - intros item' Hin. apply Hpos. by right.
  - cbn [start_of]. eapply Qcle_trans; [exact Hx|].
    rewrite <- (block_of_startX s cv pre item).
    apply block_of_grows. apply Hpos. by left.
Qed.

Lemma blocks_from_one_hit p pre rows :
  (∀ item, item ∈ rows → 0 ≤ item.1) →
  (length (List.filter (inside p) (blocks_from s cv pre rows)) ≤ 1)%nat.
Proof.
  revert pre. induction rows as [|item rows IH]; intros pre Hpos; [cbn; lia|].
  cbn [blocks_from List.filter].
  destruct (inside p (block_of s cv pre item)) eqn:Hin.
  - apply inside_iff in Hin as (_ & Hr & _).
    rewrite blocks_from_right_of; [done| |].
    + intros item' Hin'. apply Hpos. by right.
    + cbn [start_of]. apply Qclt_le_weak.
      replace (sleep_block.endX (block_of s cv pre item))
        with (sleep_block.startX (block_of s cv pre item)
              + (sleep_block.endX (block_of s cv pre item)
                 - sleep_block.startX (block_of s cv pre item))) by ring.
      exact Hr.
  - apply IH. intros item' Hin'. apply Hpos. by right.
Qed.
End Disjoint.

(** X13.  When no duration is negative and [Xdis] is not negative, the
    blocks [draw] makes follow each other from left to right without
    overlap: a block ends no later than any later block begins, so no
    canvas position is inside two blocks and a pointer event hits at most
    one block. *)
Theorem draw_blocks_disjoint :
  ∀ s : sleepWave.SleepWave,
    initialized s →
    0 ≤ sleepWave.Xdis s →
    (∀ item, item ∈ sleepWave.sleepData s → 0 ≤ item.1) →
    let blocks := sleepWave.children (sleepWave.draw s) in
    (∀ i j bi bj, (i < j)%nat → blocks !! i = Some bi → blocks !! j = Some bj →
                  sleep_block.endX bi ≤ sleep_block.startX bj)
    ∧ (∀ p i j bi bj, i ≠ j → blocks !! i = Some bi → blocks !! j = Some bj →
                      in_open_box bi p → in_open_box bj p → False)
    ∧ (∀ p, (length (List.filter (inside p) blocks) ≤ 1)%nat).
Proof.
  intros s (log & cv & Hctx & Hcv) HX Hpos blocks. subst blocks.
  rewrite (draw_children s log cv Hctx Hcv).
  assert (Hord : ∀ i j bi bj, (i < j)%nat →
                   blocks_from s cv None (sleepWave.sleepData s) !! i = Some bi →
                   blocks_from s cv None (sleepWave.sleepData s) !! j = Some bj →
                   sleep_block.endX bi ≤ sleep_block.startX bj).
  { intros i j bi bj. by apply blocks_from_ordered. }
  assert (Hsep : ∀ p i j bi bj, (i < j)%nat →
                   blocks_from s cv None (sleepWave.sleepData s) !! i = Some bi →
                   blocks_from s cv None (sleepWave.sleepData s) !! j = Some bj →
                   in_open_box bi p → in_open_box bj p → False).
  { intros p i j bi bj Hij Hbi Hbj (_ & Hr & _) (Hl & _).
    pose proof (Hord i j bi bj Hij Hbi Hbj) as Hle.
    replace (sleep_block.startX bi
             + (sleep_block.endX bi - sleep_block.startX bi))
      with (sleep_block.endX bi) in Hr by ring.
    apply (Qclt_not_le _ _ Hr). eapply Qcle_trans; [exact Hle|].
    by apply Qclt_le_weak. }
  split; [exact Hord|]. split.
  - intros p i j bi bj Hne Hbi Hbj Hini Hinj.
    destruct (Nat.lt_total i j) as [Hlt|[Heq|Hgt]]; [|done|].
    + by apply (Hsep p i j bi bj).
    + by apply (Hsep p j i bj bi).
  - intros p. by apply blocks_from_one_hit.
Qed.

(** The two blocks of the end-to-end example: the first ends at 162.5,
    where the second begins. *)
Lemma draw_blocks_disjoint_witness :
  initialized sample_chart
  ∧ 0 ≤ sleepWave.Xdis sample_chart
  ∧ ∀ p, (length (List.filter (inside p)
                    (sleepWave.children (sleepWave.draw sample_chart)))
          ≤ 1)%nat.
Proof.
  assert (Hinit : initialized sample_chart).
  { eexists _, _. split; reflexivity. }
  assert (HX : 0 ≤ sleepWave.Xdis sample_chart) by compute_done.
  split; [exact Hinit|]. split; [exact HX|].
  destruct (draw_blocks_disjoint sample_chart Hinit HX) as (_ & _ & Hone);
    [|exact Hone].
  intros item Hin.
  apply elem_of_cons in Hin as [->|Hin]; [compute_done|].
  apply list_elem_of_singleton in Hin as ->. compute_done.
Defined.

(** ** sleepWave.ts: the chart across calls *)

Section AcrossCalls.
Import sleepWave.

Lemma setOption_initialized o (st : State) :
  initialized (chart_of st) → initialized (chart_of (setOption o st)).
Proof.
  intros Hinit. unfold chart_of in *.
  destruct (Throttle.user st) as [s pg] eqn:Hu. cbn [fst] in Hinit.
  rewrite (setOption_unfold o st s pg Hu Hinit). cbn [Throttle.user fst].
  destruct Hinit as (log & cv & Hctx & Hcv).
  destruct (render_initialized o s log cv Hctx Hcv) as (Hcv1 & log1 & Hctx1).
  destruct (add_listeners_frame
              (new_listeners (length (Throttle.closures st)) (eventList s))
              (render o s)) as (Hc & _).
  eexists _, _. split; [by rewrite Hc|].
  by apply add_listeners_canvas.
Qed.

Lemma setOption_size o (st : State) cv :
  initialized (chart_of st) → canvas (chart_of st) = Some cv →
  ∃ cv', canvas (chart_of (setOption o st)) = Some cv'
         ∧ width cv' = width cv ∧ height cv' = height cv.
Proof.
  intros Hinit Hcv. unfold chart_of in *.
  destruct (Throttle.user st) as [s pg] eqn:Hu. cbn [fst] in Hinit, Hcv.
  rewrite (setOption_unfold o st s pg Hu Hinit). cbn [Throttle.user fst].
  destruct Hinit as (log & cv0 & Hctx & Hcv0).
  assert (cv0 = cv) as -> by congruence.
  destruct (render_initialized o s log cv Hctx Hcv) as (Hcv1 & _).
  eexists. split; [by apply add_listeners_canvas|]. done.
Qed.
End AcrossCalls.

(** X14.  The chart across calls.  Before [init], [setOption] does nothing
    at all, however often it is called: no drawing, no listener, no
    closure.  After [init] the chart stays initialized and its canvas keeps
    the size [init] gave it, whatever the option objects. *)
Theorem setOptions_lifecycle :
  ∀ (os : list sleepWave.Options.t) (st : sleepWave.State),
    (¬ initialized (chart_of st) → setOptions os st = st)
    ∧ (initialized (chart_of st) →
       initialized (chart_of (setOptions os st))
       ∧ ∀ cv, sleepWave.canvas (chart_of st) = Some cv →
               ∃ cv', sleepWave.canvas (chart_of (setOptions os st)) = Some cv'
                      ∧ sleepWave.width cv' = sleepWave.width cv
                      ∧ sleepWave.height cv' = sleepWave.height cv).
Proof.
  induction os as [|o os IH]; intros st.
  - split; [done|]. intros Hinit. split; [done|]. intros cv Hcv. by exists cv.
  - change (setOptions (o :: os) st)
      with (setOptions os (sleepWave.setOption o st)).
    split.
    + intros Hno. rewrite (setOption_uninitialized o st Hno).
      by apply IH.
    + intros Hinit.
      pose proof (setOption_initialized o st Hinit) as Hinit1.
      destruct (IH (sleepWave.setOption o st)) as [_ Hafter].
      destruct (Hafter Hinit1) as [Hinit' Hsize]. split; [exact Hinit'|].
      intros cv Hcv.
      destruct (setOption_size o st cv Hinit Hcv) as (cv1 & Hcv1 & Hw & Hh).
      destruct (Hsize cv1 Hcv1) as (cv' & Hcv' & Hw' & Hh').
      exists cv'. split; [done|]. by rewrite Hw', Hh'.
Qed.

(** A chart that was never mounted, and one mounted in a box of 800 by
    300. *)
Lemma setOptions_lifecycle_witness :
  setOptions [two_rows; three_types]
    (Throttle.boot 1000 (sleepWave.new, page_at 0 0))
  = Throttle.boot 1000 (sleepWave.new, page_at 0 0)
  ∧ initialized (chart_of (setOptions [two_rows; three_types] (mounted 800 300))).
Proof.
  split.
  - apply (setOptions_lifecycle [two_rows; three_types]).
    intros (log & cv & Hctx & _). discriminate Hctx.
  - apply (setOptions_lifecycle [two_rows; three_types]).
    eexists _, _. split; reflexivity.
Defined.

(** X15.  [updateProperties] is idempotent, and it never enlarges the
    radius: over any run of [setOption] calls whose option objects leave
    [borderRadius] out, the radius only ever shrinks (a cap taken on a low
    canvas or a high [axisXheight] stays when the lanes get higher
    again). *)
Theorem borderRadius_only_shrinks :
  (∀ s, sleepWave.updateProperties (sleepWave.updateProperties s)
        = sleepWave.updateProperties s)
  ∧ (∀ s, sleepWave.borderRadius (sleepWave.updateProperties s)
          ≤ sleepWave.borderRadius s)
  ∧ (∀ (os : list sleepWave.Options.t) (st : sleepWave.State),
       initialized (chart_of st) →
       (∀ o, o ∈ os → sleepWave.Options.borderRadius o = None) →
       sleepWave.borderRadius (chart_of (setOptions os st))
       ≤ sleepWave.borderRadius (chart_of st)).
Proof.
  split; [|split].
  - intros s. unfold sleepWave.updateProperties.
    destruct (sleepWave.canvas s) as [cv|] eqn:Hcv; cbn; rewrite ?Hcv; [|done].
    by rewrite Math_min_idem.
  - intros s. unfold sleepWave.updateProperties.
    destruct (sleepWave.canvas s) as [cv|]; cbn.
    + apply Math_min_le_r.
    + apply Qcle_refl.
  - induction os as [|o os IH]; intros st Hinit Hnone; [apply Qcle_refl|].
    change (setOptions (o :: os) st)
      with (setOptions os (sleepWave.setOption o st)).
    eapply Qcle_trans.
    + apply IH; [by apply setOption_initialized|].
      intros o' Hin. apply Hnone. by right.
    + unfold chart_of in Hinit |- *.
      destruct (Throttle.user st) as [s pg] eqn:Hu. cbn [fst] in Hinit |- *.
      destruct Hinit as (log & cv & Hctx & Hcv).
      destruct (setOption_layout o st s pg log cv Hu Hctx Hcv)
        as (_ & _ & Hr & _).
      unfold chart_of in Hr. rewrite Hr, (Hnone o) by (by left).
      apply Math_min_le_r.
Qed.

(** Raising [axisXheight] to 280 on a canvas 300 high leaves lanes 5 high
    and cuts the radius to 5/4; taking it back to 20 does not bring the
    radius back. *)
Lemma borderRadius_only_shrinks_witness :
  sleepWave.borderRadius
    (chart_of
       (setOptions [options None None None (Some (num 280)) None;
                    options None None None (Some (num 20)) None]
          (mounted 800 300))) = num 5 / num 4
  ∧ sleepWave.borderRadius
      (chart_of
         (setOptions [options None None None (Some (num 280)) None;
                      options None None None (Some (num 20)) None]
            (mounted 800 300)))
    ≤ sleepWave.borderRadius (chart_of (mounted 800 300)).
Proof.
  split; [compute_done|].
  destruct borderRadius_only_shrinks as (_ & _ & Hshrink).
  apply Hshrink.
  - eexists _, _. split; reflexivity.
  - intros o Hin.
    apply elem_of_cons in Hin as [->|Hin]; [reflexivity|].
    apply list_elem_of_singleton in Hin as ->. reflexivity.
Defined.

(** ** sleepWave.ts: what [throttle] dispatches *)

Section ThrottleTrace.
Context {A U : Type}.
Variable f : A → U → U.
Variable d : Z.
Variable u : U.
Implicit Types (h : Throttle.Host A U) (c : Throttle.Closure A U)
  (tm : Throttle.Timer A).





End ThrottleTrace.





(** ** SleepChart.vue: the data of the page *)

Section PageData.
Import SleepChart.

Lemma fold_push {B C : Type} (g : B → C) (l : list B) (acc : list C) :
  fold_left (λ data i, data ++ [g i]) l acc = acc ++ map g l.
Proof.
  revert acc. induction l as [|x l IH]; intros acc; cbn [fold_left map].
  - by rewrite app_nil_r.
  - rewrite IH. by rewrite <- app_assoc.
Qed.

Lemma num_add (a b : Z) : num a + num b = num (a + b).
Proof.
  apply Qc_is_canon. unfold num, Qc_of_Z. cbn [this Qcplus Q2Qc].
  rewrite !Qred_correct. by rewrite inject_Z_plus.
Qed.

Lemma num_this (z : Z) : (this (num z) == inject_Z z)%Q.
Proof. unfold num, Qc_of_Z. cbn [this Q2Qc]. apply Qeq_refl. Qed.

Lemma num_pos (z : Z) : (0 < z)%Z → 0 < num z.
Proof.
  intros Hz. unfold Qclt. rewrite num_this. change (this 0) with (inject_Z 0).
  by rewrite <- Zlt_Qlt.
Qed.

Lemma Qceiling_num (z : Z) : Qceiling (num z) = z.
Proof.
  etrans; [apply Qceiling_comp, num_this|]. apply Qceiling_Z.
Qed.

Lemma floor_bounds (r : number) (n : Z) :
  0 ≤ r → r < 1 → (0 < n)%Z →
  (0 ≤ Qfloor (r * num n)%Qc < n)%Z.
Proof.
  intros H0 H1 Hn.
  assert (Hx : (this (r * num n) == this r * inject_Z n)%Q).
  { cbn [this Qcmult Q2Qc]. rewrite Qred_correct. by rewrite num_this. }
  assert (Hn' : (0 < inject_Z n)%Q).
  { change 0%Q with (inject_Z 0). by rewrite <- Zlt_Qlt. }
  split.
  - assert (Hge : (0 <= this (r * num n))%Q).
    { rewrite Hx. apply Qmult_le_0_compat; [exact H0|]. by apply Qlt_le_weak. }
    apply (Qfloor_resp_le 0) in Hge. exact Hge.
  - rewrite Zlt_Qlt. eapply Qle_lt_trans; [apply Qfloor_le|]. rewrite Hx.
    rewrite <- (Qmult_1_l (inject_Z n)) at 2.
    by apply Qmult_lt_compat_r.
Qed.

Lemma generateRandomData_rows random pg :
  sleepData (generateRandomData random pg)
  = map (λ i : nat,
           {| duration :=
                num (Qfloor (random (2 * i + 1)%nat * num 300)%Qc + 30);
              type := num (Qfloor (random (2 * i + 2)%nat * num 4)%Qc) |})
      (seq 0 (Z.to_nat (Qfloor (random 0%nat * num 10)%Qc + 5))).
Proof.
  unfold generateRandomData, Math_floor. cbn [sleepData].
  rewrite fold_push. cbn [app]. rewrite num_add, Qceiling_num.
  apply map_ext. intros i. by rewrite num_add.
Qed.

Lemma splice1_elem {B : Type} (index : Z) (arr : list B) x :
  x ∈ splice1 index arr → x ∈ arr.
Proof.
  unfold splice1. cbv zeta. rewrite elem_of_app.
  intros [Hin|Hin].
  - by apply elem_of_take in Hin as (i & Hi & _); eapply list_elem_of_lookup_2.
  - apply list_elem_of_lookup in Hin as (i & Hi).
    rewrite lookup_drop in Hi. by eapply list_elem_of_lookup_2.
Qed.

Lemma positive_sample pg : positive_durations (loadSampleData pg).
Proof.
  intros item Hin. cbn [loadSampleData sleepData] in Hin.
  repeat (apply elem_of_cons in Hin as [->|Hin]; [by apply num_pos|]).
  by apply elem_of_nil in Hin.
Qed.

Lemma positive_act a pg :
  allowed a → positive_durations pg → positive_durations (act pg a).
Proof.
  intros Hok Hpos. destruct a as [item| |index| | |random]; cbn [act].
  - exact Hpos.
  - unfold addDataItem. destruct (gtb _ _) eqn:Hgt; [|exact Hpos].
    apply ltb_lt in Hgt. intros item Hin. cbn [sleepData] in Hin.
    apply elem_of_app in Hin as [Hin|Hin]; [by apply Hpos|].
    apply list_elem_of_singleton in Hin as ->. exact Hgt.
  - intros item Hin. apply Hpos. cbn [removeDataItem sleepData] in Hin.
    by eapply splice1_elem.
  - intros item Hin. by apply elem_of_nil in Hin.
  - apply positive_sample.
  - intros item Hin. rewrite generateRandomData_rows in Hin.
    apply list_elem_of_In, in_map_iff in Hin as (i & <- & _).
    cbn [duration]. apply num_pos.
    destruct (Hok (2 * i + 1)%nat) as [H0 H1].
    pose proof (floor_bounds _ 300 H0 H1 ltac:(lia)). lia.
Qed.
End PageData.

(** X18.  The table of the example page never holds a row whose duration
    is zero or negative: the sample data [setup] loads has none, and
    whatever the user does (edit the form to any values, add, remove at any
    index, clear, load the sample, generate random data) none comes in; the
    one guard that ensures it for typed-in values is [duration > 0] in
    [addDataItem]. *)
Theorem page_durations_positive :
  positive_durations SleepChart.setup
  ∧ ∀ (actions : list SleepChart.Action) (pg : SleepChart.Page),
      positive_durations pg → Forall allowed actions →
      positive_durations (after actions pg).
Proof.
  split; [apply positive_sample|].
  induction actions as [|a actions IH]; intros pg Hpos Hok; [done|].
  apply list.Forall_cons in Hok as [Ha Hok].
  cbn [after fold_left]. apply IH; [|done]. by apply positive_act.
Qed.

(** The user types a duration of -5 and presses add, then clears the form
    to 0 and presses add again, then generates data and removes row 2. *)
Lemma page_durations_positive_witness :
  positive_durations
    (after
       [SleepChart.editForm
          {| SleepChart.duration := num (-5); SleepChart.type := num 1 |};
        SleepChart.add;
        SleepChart.editForm
          {| SleepChart.duration := num 0; SleepChart.type := num 1 |};
        SleepChart.add;
        SleepChart.generateRandom halves;
        SleepChart.removeAt 2]
       SleepChart.setup).
Proof.
  destruct page_durations_positive as [Hsetup Hkeep].
  apply Hkeep; [exact Hsetup|].
  repeat (apply list.Forall_cons; split; [try exact I|]);
    [|apply list.Forall_nil_2].
  intros i. split; compute_done.
Defined.

(** X19.  With [Math.random()] in [[0, 1)], [generateRandomData] replaces
    the table by between 5 and 14 rows; each duration is an integer from 30
    to 329 and each type an integer from 0 to 3; the form is left as it
    is. *)
Theorem generateRandomData_bounds :
  ∀ (random : nat → number) (pg : SleepChart.Page),
    unit_interval random →
    let pg' := SleepChart.generateRandomData random pg in
    (5 ≤ length (SleepChart.sleepData pg') ≤ 14)%nat
    ∧ (∀ item, item ∈ SleepChart.sleepData pg' →
         ∃ dz tz : Z,
           SleepChart.duration item = num dz ∧ (30 ≤ dz ≤ 329)%Z
           ∧ SleepChart.type item = num tz ∧ (0 ≤ tz ≤ 3)%Z)
    ∧ SleepChart.newDataItem pg' = SleepChart.newDataItem pg.
Proof.
  intros random pg Hr pg'. subst pg'. rewrite generateRandomData_rows.
  split; [|split; [|done]].
  - rewrite length_map, length_seq.
    destruct (Hr 0%nat) as [H0 H1].
    pose proof (floor_bounds _ 10 H0 H1 ltac:(lia)). lia.
  - intros item Hin.
    apply list_elem_of_In, in_map_iff in Hin as (i & <- & _).
    destruct (Hr (2 * i + 1)%nat) as [Hd0 Hd1].
    destruct (Hr (2 * i + 2)%nat) as [Ht0 Ht1].
    pose proof (floor_bounds _ 300 Hd0 Hd1 ltac:(lia)).
    pose proof (floor_bounds _ 4 Ht0 Ht1 ltac:(lia)).
    eexists _, _. cbn [SleepChart.duration SleepChart.type].
    split; [reflexivity|]. split; [lia|]. split; [reflexivity|]. lia.
Qed.

(** When every random number is 1/2 there are 10 rows. *)
Lemma generateRandomData_bounds_witness :
  unit_interval halves
  ∧ (5 ≤ length (SleepChart.sleepData
                   (SleepChart.generateRandomData halves SleepChart.setup))
     ≤ 14)%nat.
Proof.
  assert (Hr : unit_interval halves) by (intros i; split; compute_done).
  split; [exact Hr|].
  apply (generateRandomData_bounds halves SleepChart.setup Hr).
Defined.

(** X20.  [removeDataItem(index)] for an integer [index]: an index of a
    row removes that row and nothing else, the rows after it move up by
    one; an index at or past the end removes nothing; a negative index
    counts from the end, and one below minus the length removes the first
    row.  The form is never touched. *)
Theorem removeDataItem_splice :
  ∀ (index : Z) (pg : SleepChart.Page),
    let data := SleepChart.sleepData pg in
    let data' := SleepChart.sleepData (SleepChart.removeDataItem index pg) in
    let len := Z.of_nat (length data) in
    ((0 ≤ index < len)%Z →
       data' = take (Z.to_nat index) data ++ drop (S (Z.to_nat index)) data
       ∧ S (length data') = length data
       ∧ (∀ j, (j < Z.to_nat index)%nat → data' !! j = data !! j)
       ∧ (∀ j, (Z.to_nat index ≤ j)%nat → data' !! j = data !! S j))
    ∧ ((len ≤ index)%Z → data' = data)
    ∧ ((- len ≤ index < 0)%Z →
       data' = take (Z.to_nat (len + index)) data
               ++ drop (S (Z.to_nat (len + index))) data)
    ∧ ((index < - len)%Z → data' = drop 1 data)
    ∧ SleepChart.newDataItem (SleepChart.removeDataItem index pg)
      = SleepChart.newDataItem pg.
Proof.
  intros index pg data data' len. subst data'.
  unfold SleepChart.removeDataItem, SleepChart.splice1.
  cbn [SleepChart.sleepData SleepChart.newDataItem]. fold data. fold len.
  split; [|split; [|split; [|split; [|done]]]].
  - intros Hi. destruct (Z.ltb_spec index 0) as [?|_]; [lia|].
    rewrite Z.min_l by lia. split; [done|].
    assert (Hlt : (Z.to_nat index < length data)%nat) by lia.
    split; [|split].
    + rewrite length_app, length_take, length_drop. lia.
    + intros j Hj. rewrite lookup_app_l by (rewrite length_take; lia).
      by rewrite lookup_take_lt.
    + intros j Hj. rewrite lookup_app_r by (rewrite length_take; lia).
      rewrite length_take, lookup_drop. f_equal. lia.
  - intros Hi. destruct (Z.ltb_spec index 0) as [?|_]; [lia|].
    rewrite Z.min_r by lia. subst len. rewrite Nat2Z.id.
    rewrite firstn_all, drop_ge by lia. by rewrite app_nil_r.
  - intros Hi. destruct (Z.ltb_spec index 0) as [_|?]; [|lia].
    by rewrite Z.max_l by lia.
  - intros Hi. destruct (Z.ltb_spec index 0) as [_|?]; [|lia].
    by rewrite Z.max_r by lia.
Qed.

(** Removing row 2 of the sample data, which has eight rows. *)
Lemma removeDataItem_splice_witness :
  (0 ≤ 2 < Z.of_nat (length (SleepChart.sleepData SleepChart.setup)))%Z
  ∧ S (length (SleepChart.sleepData
                 (SleepChart.removeDataItem 2 SleepChart.setup)))
    = length (SleepChart.sleepData SleepChart.setup)
  ∧ SleepChart.sleepData (SleepChart.removeDataItem 2 SleepChart.setup) !! 2%nat
    = SleepChart.sleepData SleepChart.setup !! 3%nat.
Proof.
  assert (Hi : (0 ≤ 2 < Z.of_nat (length (SleepChart.sleepData
                                             SleepChart.setup)))%Z)
    by (cbn; lia).
  split; [exact Hi|].
  destruct (removeDataItem_splice 2 SleepChart.setup) as (Hrow & _).
  destruct (Hrow Hi) as (_ & Hlen & _ & Hshift).
  split; [exact Hlen|]. apply (Hshift 2%nat). cbn. lia.
Defined.

(** X21.  [addDataItem] puts the form's row at the end of the table and
    resets the form to a duration of 60 and type 0, but only when the
    form's duration is greater than 0; otherwise it changes nothing.
    Removing at the old length, or at -1, takes the added row out again. *)
Theorem addDataItem_then_remove :
  ∀ pg : SleepChart.Page,
    let data := SleepChart.sleepData pg in
    let last := Z.of_nat (length data) in
    (¬ 0 < SleepChart.duration (SleepChart.newDataItem pg) →
       SleepChart.addDataItem pg = pg)
    ∧ (0 < SleepChart.duration (SleepChart.newDataItem pg) →
       SleepChart.sleepData (SleepChart.addDataItem pg)
       = data ++ [SleepChart.newDataItem pg]
       ∧ SleepChart.newDataItem (SleepChart.addDataItem pg)
         = {| SleepChart.duration := num 60; SleepChart.type := num 0 |}
       ∧ SleepChart.sleepData
           (SleepChart.removeDataItem last (SleepChart.addDataItem pg))
         = data
       ∧ SleepChart.sleepData
           (SleepChart.removeDataItem (-1) (SleepChart.addDataItem pg))
         = data).
Proof.
  intros pg data last. unfold SleepChart.addDataItem, gtb.
  split.
  - intros Hno. destruct (ltb _ _) eqn:Hlt; [|done].
    apply ltb_lt in Hlt. destruct Hno. exact Hlt.
  - intros Hpos.
    assert (Hgt : ltb (num 0) (SleepChart.duration (SleepChart.newDataItem pg))
                  = true) by (by apply ltb_lt).
    rewrite Hgt.
    cbn [SleepChart.sleepData SleepChart.newDataItem]. fold data.
    assert (Hitem : {| SleepChart.duration :=
                         SleepChart.duration (SleepChart.newDataItem pg);
                       SleepChart.type :=
                         SleepChart.type (SleepChart.newDataItem pg) |}
                    = SleepChart.newDataItem pg)
      by (by destruct (SleepChart.newDataItem pg)).
    rewrite Hitem. split; [done|]. split; [done|].
    unfold SleepChart.removeDataItem, SleepChart.splice1.
    cbn [SleepChart.sleepData]. rewrite length_app. cbn [length].
    assert (Hcut : take (length data) (data ++ [SleepChart.newDataItem pg])
                   ++ drop (S (length data))
                        (data ++ [SleepChart.newDataItem pg]) = data).
    { rewrite take_app_length, drop_ge by (rewrite length_app; cbn; lia).
      by rewrite app_nil_r. }
    split.
    + destruct (Z.ltb_spec last 0) as [?|_]; [lia|].
      rewrite Z.min_l by lia. subst last. by rewrite Nat2Z.id.
    + cbn [Z.ltb Z.compare].
      replace (Z.max (Z.of_nat (length data + 1) + -1) 0)
        with (Z.of_nat (length data)) by lia.
      by rewrite Nat2Z.id.
Qed.

(** Adding the initial form (60, 0) to the sample data and taking it out
    again. *)
Lemma addDataItem_then_remove_witness :
  0 < SleepChart.duration (SleepChart.newDataItem SleepChart.setup)
  ∧ SleepChart.sleepData
      (SleepChart.removeDataItem 8 (SleepChart.addDataItem SleepChart.setup))
    = SleepChart.sleepData SleepChart.setup.
Proof.
  assert (Hpos : 0 < SleepChart.duration
                       (SleepChart.newDataItem SleepChart.setup))
    by compute_done.
  split; [exact Hpos|].
  destruct (addDataItem_then_remove SleepChart.setup) as [_ Hadd].
  destruct (Hadd Hpos) as (_ & _ & Hundo & _). exact Hundo.
Defined.

(** ** sleepWave.ts: one block per pointer event *)

Lemma filter_inside_set_point p q (blocks : list sleep_block.SleepWaveBlock) :
  length (List.filter (inside p) (map (sleep_block.set_point q) blocks))
  = length (List.filter (inside p) blocks).
Proof.
  induction blocks as [|b blocks IH]; [done|].
  cbn [map List.filter]. rewrite inside_set_point.
  destruct (inside p b); cbn [length]; by rewrite IH.
Qed.

(** X22.  On a chart drawn from rows without negative durations (and with
    [Xdis] not negative) a mouse move queues at most one tooltip placement,
    so a later placement never overwrites the tooltip of another block hit
    by the same event. *)
Theorem mousemove_queues_at_most_one :
  ∀ (event : MouseEvent.t) (s : sleepWave.SleepWave) (pg : sleep_block.Page),
    initialized s →
    0 ≤ sleepWave.Xdis s →
    (∀ item, item ∈ sleepWave.sleepData s → 0 ≤ item.1) →
    MouseEvent.type event = "mousemove" →
    ∃ placed,
      sleep_block.jobs (sleepWave.handleEvent event (sleepWave.draw s, pg)).2
      = sleep_block.jobs pg ++ placed
      ∧ (length placed ≤ 1)%nat.
Proof.
  intros event s pg Hinit HX Hpos Htype.
  pose proof (draw_constructed s Hinit) as Hall.
  destruct Hinit as (log & cv & Hctx & Hcv).
  set (p := sleep_block.getEventPosition (MouseEvent.clientX event)
              (MouseEvent.clientY event) pg).
  set (hits := List.filter (inside p)
                 (map (sleep_block.set_point p)
                    (sleepWave.children (sleepWave.draw s)))).
  exists (map sleep_block.placeTooltip hits). split.
  - unfold sleepWave.handleEvent.
    pose proof (filter_hits_spec event
                  (sleepWave.children (sleepWave.draw s)) pg) as Hf.
    cbn zeta in Hf. rewrite Hf. cbn [snd].
    assert (Hhits : Forall constructed hits).
    { apply list.Forall_forall. intros b Hb. apply list_elem_of_In in Hb.
      apply List.filter_In in Hb as [Hb _]. apply list_elem_of_In in Hb.
      apply list_elem_of_fmap in Hb as (b0 & -> & Hb0).
      apply constructed_set_point.
      by apply (proj1 (list.Forall_forall _ _) Hall). }
    destruct (emits_spec (MouseEvent.type event) event hits
                (if forallb (inside p) (sleepWave.children (sleepWave.draw s))
                 then pg else pointer_left pg) Hhits (or_intror Htype))
      as (Hj & _).
    fold p. fold hits. rewrite Hj.
    rewrite decide_True by done. f_equal. by destruct (forallb _ _).
  - rewrite length_map. subst hits. rewrite filter_inside_set_point.
    rewrite (draw_children s log cv Hctx Hcv).
    by apply blocks_from_one_hit.
Qed.

(** A mouse move at (100, 30) over the drawn two-row chart. *)
Lemma mousemove_queues_at_most_one_witness :
  initialized sample_chart
  ∧ 0 ≤ sleepWave.Xdis sample_chart
  ∧ ∃ placed,
      sleep_block.jobs
        (sleepWave.handleEvent
           {| MouseEvent.type := "mousemove"; MouseEvent.clientX := num 100;
              MouseEvent.clientY := num 30 |}
           (sleepWave.draw sample_chart, page_at 0 0)).2
      = sleep_block.jobs (page_at 0 0) ++ placed
      ∧ (length placed ≤ 1)%nat.
Proof.
  assert (Hinit : initialized sample_chart).
  { eexists _, _. split; reflexivity. }
  assert (HX : 0 ≤ sleepWave.Xdis sample_chart) by compute_done.
  split; [exact Hinit|]. split; [exact HX|].
  apply (mousemove_queues_at_most_one _ sample_chart (page_at 0 0) Hinit HX);
    [|reflexivity].
  intros item Hin.
  apply elem_of_cons in Hin as [->|Hin]; [compute_done|].
  apply list_elem_of_singleton in Hin as ->. compute_done.
Defined.

(** ** sleepWave.ts: the labels of the vertical axis *)

Section Labels.
Import sleepWave.



End Labels.


